(** * process_data.lambda_handler: S3 object -> upper-case -> DynamoDB item

    A shallow embedding of [src/process_data.py].  The handler is three
    sequential calls: [s3.get_object], [str.upper], [dynamodb.put_item].
    Python values are an inductive type, Python [str] is a list of code
    points, [bytes] a list of [byte], exceptions are an error outcome, and
    the two AWS services are a [world] that the handler reads and updates
    while logging each request it sends. *)

From Stdlib Require Import ZArith NArith String Ascii List Bool Lia.
From Stdlib Require Import Strings.Byte.
From stdpp Require Import base option gmap.
Import ListNotations.

Local Open Scope N_scope.
Set Warnings "-register-all".

(** ** Python values *)

Module Py.

(** A Python [str]: a sequence of Unicode code points. *)
Definition pystr := list N.

(** A [str] literal of the source, written with an ASCII Rocq string. *)
Definition lit (s : string) : pystr := map N_of_ascii (list_ascii_of_string s).

(** The values a JSON-decoded Lambda event is made of.  A [dict] keeps its
    entries in insertion order; its keys are [str] and pairwise different. *)
Inductive pyval :=
| PNone
| PBool (b : bool)
| PInt (i : Z)
| PFloat (bits : Z)
| PStr (s : pystr)
| PList (xs : list pyval)
| PDict (kvs : list (pystr * pyval)).

(** The exceptions that can leave the handler.  The two botocore ones carry
    the operation they come from: [ParamValidationError] is raised by the
    client before a request is sent, [ClientError] carries the error code the
    service answered with. *)
Inductive api_operation := OpGetObject | OpPutItem.

Inductive exn :=
| KeyError (k : pyval)
| IndexError
| TypeError
| UnicodeDecodeError
| ParamValidationError (operation : api_operation)
| ClientError (operation : api_operation) (code : string).

(** The error taxonomy of the handler's contract, and the class each
    exception falls in. *)
Inductive failure_kind :=
| MalformedInput
| StorageReadError
| DecodeError
| StorageWriteError.

Definition failure_kind_of (e : exn) : failure_kind :=
  match e with
  | KeyError _ | IndexError | TypeError => MalformedInput
  | UnicodeDecodeError => DecodeError
  | ParamValidationError OpGetObject | ClientError OpGetObject _ => StorageReadError
  | ParamValidationError OpPutItem | ClientError OpPutItem _ => StorageWriteError
  end.

Inductive outcome (A : Type) :=
| Returned (a : A)
| Raised (e : exn).
Arguments Returned {A} a.
Arguments Raised {A} e.

(** [d[k]] on the entries of a dict. *)
Fixpoint dict_lookup (kvs : list (pystr * pyval)) (k : pystr) : option pyval :=
  match kvs with
  | [] => None
  | (k', v) :: rest => if bool_decide (k' = k) then Some v else dict_lookup rest k
  end.

(** [xs[i]] on a sequence: negative indices count from the end. *)
Definition seq_index {A} (xs : list A) (i : Z) : option A :=
  let n := Z.of_nat (length xs) in
  if (0 <=? i)%Z && (i <? n)%Z then nth_error xs (Z.to_nat i)
  else if (- n <=? i)%Z && (i <? 0)%Z then nth_error xs (Z.to_nat (n + i))
  else None.

(** The subscript expression [v[k]]. *)
Definition getitem (v k : pyval) : outcome pyval :=
  match v with
  | PDict kvs =>
      match k with
      | PStr s => match dict_lookup kvs s with
                  | Some x => Returned x
                  | None => Raised (KeyError k)
                  end
      | PList _ | PDict _ => Raised TypeError
      | _ => Raised (KeyError k)
      end
  | PList xs =>
      match k with
      | PInt i => match seq_index xs i with
                  | Some x => Returned x
                  | None => Raised IndexError
                  end
      | PBool b => match seq_index xs (Z.b2z b) with
                   | Some x => Returned x
                   | None => Raised IndexError
                   end
      | _ => Raised TypeError
      end
  | PStr s =>
      match k with
      | PInt i => match seq_index s i with
                  | Some c => Returned (PStr [c])
                  | None => Raised IndexError
                  end
      | PBool b => match seq_index s (Z.b2z b) with
                   | Some c => Returned (PStr [c])
                   | None => Raised IndexError
                   end
      | _ => Raised TypeError
      end
  | _ => Raised TypeError
  end.

(** A chain of subscripts [v[k1][k2]...], evaluated left to right. *)
Fixpoint getpath (v : pyval) (ks : list pyval) : outcome pyval :=
  match ks with
  | [] => Returned v
  | k :: rest => match getitem v k with
                 | Returned x => getpath x rest
                 | Raised e => Raised e
                 end
  end.

End Py.
Export Py.

(** ** Text: [str.upper], [bytes.decode('utf-8')], [json.dumps] of a [str] *)

Module Text.

(** *** The upper-case mapping of the Unicode Character Database

    [str.upper()] maps every code point through the full upper-case mapping
    of the interpreter's Unicode database and concatenates the results.  The
    tables below are those of Unicode 14.0.0 (CPython 3.11): the one-to-one
    mappings as arithmetic progressions [lo, lo+stride, .., hi] that are sent
    to [upper_lo, upper_lo+stride, ..], and the one-to-many mappings of
    SpecialCasing spelled out.  The first range is ASCII [a-z]. *)

Record case_range := CaseRange {
  cr_lo : N;
  cr_hi : N;
  cr_stride : N;
  cr_upper_lo : N
}.

Definition in_range (c : N) (r : case_range) : bool :=
  if c <? cr_lo r then false
  else if cr_hi r <? c then false
  else (c - cr_lo r) mod cr_stride r =? 0.

Definition simple_upper_ranges : list case_range :=
  [ CaseRange 0x0061 0x007A 1 0x0041; CaseRange 0x00B5 0x00B5 1 0x039C;
    CaseRange 0x00E0 0x00F6 1 0x00C0; CaseRange 0x00F8 0x00FE 1 0x00D8;
    CaseRange 0x00FF 0x00FF 1 0x0178; CaseRange 0x0101 0x012F 2 0x0100;
    CaseRange 0x0131 0x0131 1 0x0049; CaseRange 0x0133 0x0137 2 0x0132;
    CaseRange 0x013A 0x0148 2 0x0139; CaseRange 0x014B 0x0177 2 0x014A;
    CaseRange 0x017A 0x017E 2 0x0179; CaseRange 0x017F 0x017F 1 0x0053;
    CaseRange 0x0180 0x0180 1 0x0243; CaseRange 0x0183 0x0185 2 0x0182;
    CaseRange 0x0188 0x0188 1 0x0187; CaseRange 0x018C 0x018C 1 0x018B;
    CaseRange 0x0192 0x0192 1 0x0191; CaseRange 0x0195 0x0195 1 0x01F6;
    CaseRange 0x0199 0x0199 1 0x0198; CaseRange 0x019A 0x019A 1 0x023D;
    CaseRange 0x019E 0x019E 1 0x0220; CaseRange 0x01A1 0x01A5 2 0x01A0;
    CaseRange 0x01A8 0x01A8 1 0x01A7; CaseRange 0x01AD 0x01AD 1 0x01AC;
    CaseRange 0x01B0 0x01B0 1 0x01AF; CaseRange 0x01B4 0x01B6 2 0x01B3;
    CaseRange 0x01B9 0x01B9 1 0x01B8; CaseRange 0x01BD 0x01BD 1 0x01BC;
    CaseRange 0x01BF 0x01BF 1 0x01F7; CaseRange 0x01C5 0x01C5 1 0x01C4;
    CaseRange 0x01C6 0x01C6 1 0x01C4; CaseRange 0x01C8 0x01C8 1 0x01C7;
    CaseRange 0x01C9 0x01C9 1 0x01C7; CaseRange 0x01CB 0x01CB 1 0x01CA;
    CaseRange 0x01CC 0x01CC 1 0x01CA; CaseRange 0x01CE 0x01DC 2 0x01CD;
    CaseRange 0x01DD 0x01DD 1 0x018E; CaseRange 0x01DF 0x01EF 2 0x01DE;
    CaseRange 0x01F2 0x01F2 1 0x01F1; CaseRange 0x01F3 0x01F3 1 0x01F1;
    CaseRange 0x01F5 0x01F5 1 0x01F4; CaseRange 0x01F9 0x021F 2 0x01F8;
    CaseRange 0x0223 0x0233 2 0x0222; CaseRange 0x023C 0x023C 1 0x023B;
    CaseRange 0x023F 0x0240 1 0x2C7E; CaseRange 0x0242 0x0242 1 0x0241;
    CaseRange 0x0247 0x024F 2 0x0246; CaseRange 0x0250 0x0250 1 0x2C6F;
    CaseRange 0x0251 0x0251 1 0x2C6D; CaseRange 0x0252 0x0252 1 0x2C70;
    CaseRange 0x0253 0x0253 1 0x0181; CaseRange 0x0254 0x0254 1 0x0186;
    CaseRange 0x0256 0x0257 1 0x0189; CaseRange 0x0259 0x0259 1 0x018F;
    CaseRange 0x025B 0x025B 1 0x0190; CaseRange 0x025C 0x025C 1 0xA7AB;
    CaseRange 0x0260 0x0260 1 0x0193; CaseRange 0x0261 0x0261 1 0xA7AC;
    CaseRange 0x0263 0x0263 1 0x0194; CaseRange 0x0265 0x0265 1 0xA78D;
    CaseRange 0x0266 0x0266 1 0xA7AA; CaseRange 0x0268 0x0268 1 0x0197;
    CaseRange 0x0269 0x0269 1 0x0196; CaseRange 0x026A 0x026A 1 0xA7AE;
    CaseRange 0x026B 0x026B 1 0x2C62; CaseRange 0x026C 0x026C 1 0xA7AD;
    CaseRange 0x026F 0x026F 1 0x019C; CaseRange 0x0271 0x0271 1 0x2C6E;
    CaseRange 0x0272 0x0272 1 0x019D; CaseRange 0x0275 0x0275 1 0x019F;
    CaseRange 0x027D 0x027D 1 0x2C64; CaseRange 0x0280 0x0280 1 0x01A6;
    CaseRange 0x0282 0x0282 1 0xA7C5; CaseRange 0x0283 0x0283 1 0x01A9;
    CaseRange 0x0287 0x0287 1 0xA7B1; CaseRange 0x0288 0x0288 1 0x01AE;
    CaseRange 0x0289 0x0289 1 0x0244; CaseRange 0x028A 0x028B 1 0x01B1;
    CaseRange 0x028C 0x028C 1 0x0245; CaseRange 0x0292 0x0292 1 0x01B7;
    CaseRange 0x029D 0x029D 1 0xA7B2; CaseRange 0x029E 0x029E 1 0xA7B0;
    CaseRange 0x0345 0x0345 1 0x0399; CaseRange 0x0371 0x0373 2 0x0370;
    CaseRange 0x0377 0x0377 1 0x0376; CaseRange 0x037B 0x037D 1 0x03FD;
    CaseRange 0x03AC 0x03AC 1 0x0386; CaseRange 0x03AD 0x03AF 1 0x0388;
    CaseRange 0x03B1 0x03C1 1 0x0391; CaseRange 0x03C2 0x03C2 1 0x03A3;
    CaseRange 0x03C3 0x03CB 1 0x03A3; CaseRange 0x03CC 0x03CC 1 0x038C;
    CaseRange 0x03CD 0x03CE 1 0x038E; CaseRange 0x03D0 0x03D0 1 0x0392;
    CaseRange 0x03D1 0x03D1 1 0x0398; CaseRange 0x03D5 0x03D5 1 0x03A6;
    CaseRange 0x03D6 0x03D6 1 0x03A0; CaseRange 0x03D7 0x03D7 1 0x03CF;
    CaseRange 0x03D9 0x03EF 2 0x03D8; CaseRange 0x03F0 0x03F0 1 0x039A;
    CaseRange 0x03F1 0x03F1 1 0x03A1; CaseRange 0x03F2 0x03F2 1 0x03F9;
    CaseRange 0x03F3 0x03F3 1 0x037F; CaseRange 0x03F5 0x03F5 1 0x0395;
    CaseRange 0x03F8 0x03F8 1 0x03F7; CaseRange 0x03FB 0x03FB 1 0x03FA;
    CaseRange 0x0430 0x044F 1 0x0410; CaseRange 0x0450 0x045F 1 0x0400;
    CaseRange 0x0461 0x0481 2 0x0460; CaseRange 0x048B 0x04BF 2 0x048A;
    CaseRange 0x04C2 0x04CE 2 0x04C1; CaseRange 0x04CF 0x04CF 1 0x04C0;
    CaseRange 0x04D1 0x052F 2 0x04D0; CaseRange 0x0561 0x0586 1 0x0531;
    CaseRange 0x10D0 0x10FA 1 0x1C90; CaseRange 0x10FD 0x10FF 1 0x1CBD;
    CaseRange 0x13F8 0x13FD 1 0x13F0; CaseRange 0x1C80 0x1C80 1 0x0412;
    CaseRange 0x1C81 0x1C81 1 0x0414; CaseRange 0x1C82 0x1C82 1 0x041E;
    CaseRange 0x1C83 0x1C84 1 0x0421; CaseRange 0x1C85 0x1C85 1 0x0422;
    CaseRange 0x1C86 0x1C86 1 0x042A; CaseRange 0x1C87 0x1C87 1 0x0462;
    CaseRange 0x1C88 0x1C88 1 0xA64A; CaseRange 0x1D79 0x1D79 1 0xA77D;
    CaseRange 0x1D7D 0x1D7D 1 0x2C63; CaseRange 0x1D8E 0x1D8E 1 0xA7C6;
    CaseRange 0x1E01 0x1E95 2 0x1E00; CaseRange 0x1E9B 0x1E9B 1 0x1E60;
    CaseRange 0x1EA1 0x1EFF 2 0x1EA0; CaseRange 0x1F00 0x1F07 1 0x1F08;
    CaseRange 0x1F10 0x1F15 1 0x1F18; CaseRange 0x1F20 0x1F27 1 0x1F28;
    CaseRange 0x1F30 0x1F37 1 0x1F38; CaseRange 0x1F40 0x1F45 1 0x1F48;
    CaseRange 0x1F51 0x1F57 2 0x1F59; CaseRange 0x1F60 0x1F67 1 0x1F68;
    CaseRange 0x1F70 0x1F71 1 0x1FBA; CaseRange 0x1F72 0x1F75 1 0x1FC8;
    CaseRange 0x1F76 0x1F77 1 0x1FDA; CaseRange 0x1F78 0x1F79 1 0x1FF8;
    CaseRange 0x1F7A 0x1F7B 1 0x1FEA; CaseRange 0x1F7C 0x1F7D 1 0x1FFA;
    CaseRange 0x1FB0 0x1FB1 1 0x1FB8; CaseRange 0x1FBE 0x1FBE 1 0x0399;
    CaseRange 0x1FD0 0x1FD1 1 0x1FD8; CaseRange 0x1FE0 0x1FE1 1 0x1FE8;
    CaseRange 0x1FE5 0x1FE5 1 0x1FEC; CaseRange 0x214E 0x214E 1 0x2132;
    CaseRange 0x2170 0x217F 1 0x2160; CaseRange 0x2184 0x2184 1 0x2183;
    CaseRange 0x24D0 0x24E9 1 0x24B6; CaseRange 0x2C30 0x2C5F 1 0x2C00;
    CaseRange 0x2C61 0x2C61 1 0x2C60; CaseRange 0x2C65 0x2C65 1 0x023A;
    CaseRange 0x2C66 0x2C66 1 0x023E; CaseRange 0x2C68 0x2C6C 2 0x2C67;
    CaseRange 0x2C73 0x2C73 1 0x2C72; CaseRange 0x2C76 0x2C76 1 0x2C75;
    CaseRange 0x2C81 0x2CE3 2 0x2C80; CaseRange 0x2CEC 0x2CEE 2 0x2CEB;
    CaseRange 0x2CF3 0x2CF3 1 0x2CF2; CaseRange 0x2D00 0x2D25 1 0x10A0;
    CaseRange 0x2D27 0x2D27 1 0x10C7; CaseRange 0x2D2D 0x2D2D 1 0x10CD;
    CaseRange 0xA641 0xA66D 2 0xA640; CaseRange 0xA681 0xA69B 2 0xA680;
    CaseRange 0xA723 0xA72F 2 0xA722; CaseRange 0xA733 0xA76F 2 0xA732;
    CaseRange 0xA77A 0xA77C 2 0xA779; CaseRange 0xA77F 0xA787 2 0xA77E;
    CaseRange 0xA78C 0xA78C 1 0xA78B; CaseRange 0xA791 0xA793 2 0xA790;
    CaseRange 0xA794 0xA794 1 0xA7C4; CaseRange 0xA797 0xA7A9 2 0xA796;
    CaseRange 0xA7B5 0xA7C3 2 0xA7B4; CaseRange 0xA7C8 0xA7CA 2 0xA7C7;
    CaseRange 0xA7D1 0xA7D1 1 0xA7D0; CaseRange 0xA7D7 0xA7D9 2 0xA7D6;
    CaseRange 0xA7F6 0xA7F6 1 0xA7F5; CaseRange 0xAB53 0xAB53 1 0xA7B3;
    CaseRange 0xAB70 0xABBF 1 0x13A0; CaseRange 0xFF41 0xFF5A 1 0xFF21;
    CaseRange 0x10428 0x1044F 1 0x10400; CaseRange 0x104D8 0x104FB 1 0x104B0;
    CaseRange 0x10597 0x105BB 2 0x10570; CaseRange 0x10598 0x105A0 2 0x10571;
    CaseRange 0x105A4 0x105B0 2 0x1057D; CaseRange 0x105B4 0x105B8 2 0x1058D;
    CaseRange 0x105BC 0x105BC 1 0x10595; CaseRange 0x10CC0 0x10CF2 1 0x10C80;
    CaseRange 0x118C0 0x118DF 1 0x118A0; CaseRange 0x16E60 0x16E7F 1 0x16E40;
    CaseRange 0x1E922 0x1E943 1 0x1E900 ].

Definition special_upper : list (N * list N) :=
  [ (0x00DF, [0x0053; 0x0053]); (0x0149, [0x02BC; 0x004E]);
    (0x01F0, [0x004A; 0x030C]); (0x0390, [0x0399; 0x0308; 0x0301]);
    (0x03B0, [0x03A5; 0x0308; 0x0301]); (0x0587, [0x0535; 0x0552]);
    (0x1E96, [0x0048; 0x0331]); (0x1E97, [0x0054; 0x0308]);
    (0x1E98, [0x0057; 0x030A]); (0x1E99, [0x0059; 0x030A]);
    (0x1E9A, [0x0041; 0x02BE]); (0x1F50, [0x03A5; 0x0313]);
    (0x1F52, [0x03A5; 0x0313; 0x0300]); (0x1F54, [0x03A5; 0x0313; 0x0301]);
    (0x1F56, [0x03A5; 0x0313; 0x0342]); (0x1F80, [0x1F08; 0x0399]);
    (0x1F81, [0x1F09; 0x0399]); (0x1F82, [0x1F0A; 0x0399]);
    (0x1F83, [0x1F0B; 0x0399]); (0x1F84, [0x1F0C; 0x0399]);
    (0x1F85, [0x1F0D; 0x0399]); (0x1F86, [0x1F0E; 0x0399]);
    (0x1F87, [0x1F0F; 0x0399]); (0x1F88, [0x1F08; 0x0399]);
    (0x1F89, [0x1F09; 0x0399]); (0x1F8A, [0x1F0A; 0x0399]);
    (0x1F8B, [0x1F0B; 0x0399]); (0x1F8C, [0x1F0C; 0x0399]);
    (0x1F8D, [0x1F0D; 0x0399]); (0x1F8E, [0x1F0E; 0x0399]);
    (0x1F8F, [0x1F0F; 0x0399]); (0x1F90, [0x1F28; 0x0399]);
    (0x1F91, [0x1F29; 0x0399]); (0x1F92, [0x1F2A; 0x0399]);
    (0x1F93, [0x1F2B; 0x0399]); (0x1F94, [0x1F2C; 0x0399]);
    (0x1F95, [0x1F2D; 0x0399]); (0x1F96, [0x1F2E; 0x0399]);
    (0x1F97, [0x1F2F; 0x0399]); (0x1F98, [0x1F28; 0x0399]);
    (0x1F99, [0x1F29; 0x0399]); (0x1F9A, [0x1F2A; 0x0399]);
    (0x1F9B, [0x1F2B; 0x0399]); (0x1F9C, [0x1F2C; 0x0399]);
    (0x1F9D, [0x1F2D; 0x0399]); (0x1F9E, [0x1F2E; 0x0399]);
    (0x1F9F, [0x1F2F; 0x0399]); (0x1FA0, [0x1F68; 0x0399]);
    (0x1FA1, [0x1F69; 0x0399]); (0x1FA2, [0x1F6A; 0x0399]);
    (0x1FA3, [0x1F6B; 0x0399]); (0x1FA4, [0x1F6C; 0x0399]);
    (0x1FA5, [0x1F6D; 0x0399]); (0x1FA6, [0x1F6E; 0x0399]);
    (0x1FA7, [0x1F6F; 0x0399]); (0x1FA8, [0x1F68; 0x0399]);
    (0x1FA9, [0x1F69; 0x0399]); (0x1FAA, [0x1F6A; 0x0399]);
    (0x1FAB, [0x1F6B; 0x0399]); (0x1FAC, [0x1F6C; 0x0399]);
    (0x1FAD, [0x1F6D; 0x0399]); (0x1FAE, [0x1F6E; 0x0399]);
    (0x1FAF, [0x1F6F; 0x0399]); (0x1FB2, [0x1FBA; 0x0399]);
    (0x1FB3, [0x0391; 0x0399]); (0x1FB4, [0x0386; 0x0399]);
    (0x1FB6, [0x0391; 0x0342]); (0x1FB7, [0x0391; 0x0342; 0x0399]);
    (0x1FBC, [0x0391; 0x0399]); (0x1FC2, [0x1FCA; 0x0399]);
    (0x1FC3, [0x0397; 0x0399]); (0x1FC4, [0x0389; 0x0399]);
    (0x1FC6, [0x0397; 0x0342]); (0x1FC7, [0x0397; 0x0342; 0x0399]);
    (0x1FCC, [0x0397; 0x0399]); (0x1FD2, [0x0399; 0x0308; 0x0300]);
    (0x1FD3, [0x0399; 0x0308; 0x0301]); (0x1FD6, [0x0399; 0x0342]);
    (0x1FD7, [0x0399; 0x0308; 0x0342]); (0x1FE2, [0x03A5; 0x0308; 0x0300]);
    (0x1FE3, [0x03A5; 0x0308; 0x0301]); (0x1FE4, [0x03A1; 0x0313]);
    (0x1FE6, [0x03A5; 0x0342]); (0x1FE7, [0x03A5; 0x0308; 0x0342]);
    (0x1FF2, [0x1FFA; 0x0399]); (0x1FF3, [0x03A9; 0x0399]);
    (0x1FF4, [0x038F; 0x0399]); (0x1FF6, [0x03A9; 0x0342]);
    (0x1FF7, [0x03A9; 0x0342; 0x0399]); (0x1FFC, [0x03A9; 0x0399]);
    (0xFB00, [0x0046; 0x0046]); (0xFB01, [0x0046; 0x0049]);
    (0xFB02, [0x0046; 0x004C]); (0xFB03, [0x0046; 0x0046; 0x0049]);
    (0xFB04, [0x0046; 0x0046; 0x004C]); (0xFB05, [0x0053; 0x0054]);
    (0xFB06, [0x0053; 0x0054]); (0xFB13, [0x0544; 0x0546]);
    (0xFB14, [0x0544; 0x0535]); (0xFB15, [0x0544; 0x053B]);
    (0xFB16, [0x054E; 0x0546]); (0xFB17, [0x0544; 0x053D]) ].

Fixpoint assoc_cp {A} (c : N) (l : list (N * A)) : option A :=
  match l with
  | [] => None
  | (c', a) :: rest => if c' =? c then Some a else assoc_cp c rest
  end.

(** The upper-case mapping of one code point. *)
Definition upper_cp (c : N) : list N :=
  match assoc_cp c special_upper with
  | Some us => us
  | None =>
      match find (in_range c) simple_upper_ranges with
      | Some r => [c - cr_lo r + cr_upper_lo r]
      | None => [c]
      end
  end.

(** [s.upper()] *)
Definition str_upper (s : pystr) : pystr := flat_map upper_cp s.

(** The members of a range, and the checks that decide the closure of the
    table under itself: the image of every entry is made of code points the
    mapping leaves alone. *)
Fixpoint progression (n : nat) (c stride : N) : list N :=
  match n with
  | O => []
  | S n' => c :: progression n' (c + stride) stride
  end.

Definition range_members (r : case_range) : list N :=
  progression (S (N.to_nat ((cr_hi r - cr_lo r) / cr_stride r))) (cr_lo r) (cr_stride r).

Definition is_fixed (c : N) : bool := bool_decide (upper_cp c = [c]).

Definition range_image_fixed (r : case_range) : bool :=
  forallb (fun c => is_fixed (c - cr_lo r + cr_upper_lo r)) (range_members r).

Definition special_image_fixed (e : N * list N) : bool := forallb is_fixed (snd e).

(** Upper-casing restricted to ASCII: [a-z] to [A-Z]. *)
Definition ascii_upper (c : N) : N :=
  if (97 <=? c) && (c <=? 122) then c - 32 else c.

(** *** [bytes.decode('utf-8')], error handler [strict] *)

Definition is_cont (b : N) : bool := N.land b 0xC0 =? 0x80.

Definition cont_bits (b : N) : N := N.land b 0x3F.

Definition is_surrogate (c : N) : bool := (0xD800 <=? c) && (c <=? 0xDFFF).

(** Decoding of a sequence of code units (each below 256): shortest form
    only, no surrogates, nothing above U+10FFFF. *)
Fixpoint utf8_units (bs : list N) : option pystr :=
  match bs with
  | [] => Some []
  | b0 :: r0 =>
      if b0 <? 0x80 then cons b0 <$> utf8_units r0
      else if b0 <? 0xC2 then None
      else if b0 <? 0xE0 then
        match r0 with
        | b1 :: r1 =>
            let c := N.lor (N.shiftl (N.land b0 0x1F) 6) (cont_bits b1) in
            if is_cont b1 then cons c <$> utf8_units r1 else None
        | _ => None
        end
      else if b0 <? 0xF0 then
        match r0 with
        | b1 :: b2 :: r2 =>
            let c := N.lor (N.shiftl (N.land b0 0x0F) 12)
                       (N.lor (N.shiftl (cont_bits b1) 6) (cont_bits b2)) in
            if is_cont b1 && is_cont b2 && (0x800 <=? c) && negb (is_surrogate c)
            then cons c <$> utf8_units r2 else None
        | _ => None
        end
      else if b0 <? 0xF5 then
        match r0 with
        | b1 :: b2 :: b3 :: r3 =>
            let c := N.lor (N.shiftl (N.land b0 0x07) 18)
                       (N.lor (N.shiftl (cont_bits b1) 12)
                          (N.lor (N.shiftl (cont_bits b2) 6) (cont_bits b3))) in
            if is_cont b1 && is_cont b2 && is_cont b3
               && (0x10000 <=? c) && (c <=? 0x10FFFF)
            then cons c <$> utf8_units r3 else None
        | _ => None
        end
      else None
  end.

(** [b.decode('utf-8')] *)
Definition decode_utf8 (b : list byte) : outcome pystr :=
  match utf8_units (map Byte.to_N b) with
  | Some s => Returned s
  | None => Raised UnicodeDecodeError
  end.

(** *** [json.dumps] of a [str] (default [ensure_ascii=True]) *)

(** One lower-case hexadecimal digit, as a code point. *)
Definition hex_digit (d : N) : N := if d <? 10 then 48 + d else 87 + d.

(** The escape [\uXXXX] of a 16-bit unit. *)
Definition u_escape (n : N) : pystr :=
  [92; 117; hex_digit (N.land (N.shiftr n 12) 0xF); hex_digit (N.land (N.shiftr n 8) 0xF);
   hex_digit (N.land (N.shiftr n 4) 0xF); hex_digit (N.land n 0xF)].

(** What one code point becomes inside the JSON string: the two-character
    escapes of the quote (34), the backslash (92) and of backspace, tab, line
    feed, form feed and carriage return; printable ASCII as it is; everything else as
    [\uXXXX], code points above U+FFFF as a surrogate pair. *)
Definition json_escape_cp (c : N) : pystr :=
  if c =? 34 then [92; 34]
  else if c =? 92 then [92; 92]
  else if c =? 8 then [92; 98]
  else if c =? 9 then [92; 116]
  else if c =? 10 then [92; 110]
  else if c =? 12 then [92; 102]
  else if c =? 13 then [92; 114]
  else if (32 <=? c) && (c <=? 126) then [c]
  else if c <? 0x10000 then u_escape c
  else
    let n := c - 0x10000 in
    u_escape (N.lor 0xD800 (N.land (N.shiftr n 10) 0x3FF))
      ++ u_escape (N.lor 0xDC00 (N.land n 0x3FF)).

(** [json.dumps(s)] for a [str] [s]: the escaped text between two quotes. *)
Definition json_dumps_str (s : pystr) : pystr :=
  [34] ++ flat_map json_escape_cp s ++ [34].

End Text.
Export Text.

(** ** The two AWS services and the requests sent to them *)

Module Aws.

(** A request that left the process. *)
Inductive request :=
| GetObject (Bucket Key : pystr)
| PutItem (TableName : pystr) (Item : pyval).

(** The state outside the process.  S3 is the answer it gives to a
    [GetObject]: the object's bytes, or an error code ([NoSuchKey],
    [NoSuchBucket], [AccessDenied], ...).  DynamoDB is its tables, each the
    list of its items, and the requests it turns down for a reason of its own
    (throttling, permissions, item size). *)
Record world := World {
  s3_objects : pystr -> pystr -> string + list byte;
  dynamodb_rejects : pystr -> pyval -> option string;
  dynamodb_tables : gmap pystr (list pyval)
}.

(** A computation that may raise, reads and updates the world, and logs the
    requests it sends, oldest first. *)
Definition io (A : Type) : Type := world -> outcome A * world * list request.

Definition ret {A} (a : A) : io A := fun w => (Returned a, w, []).

Definition raise {A} (e : exn) : io A := fun w => (Raised e, w, []).

Definition bind {A B} (m : io A) (k : A -> io B) : io B := fun w =>
  match m w with
  | (Returned a, w1, log1) =>
      match k a w1 with
      | (r, w2, log2) => (r, w2, log1 ++ log2)
      end
  | (Raised e, w1, log1) => (Raised e, w1, log1)
  end.

(** A pure step that may raise. *)
Definition lift {A} (r : outcome A) : io A :=
  match r with
  | Returned a => ret a
  | Raised e => raise e
  end.

Declare Scope io_scope.
Delimit Scope io_scope with io.
Notation "'let*' x ':=' m 'in' k" := (bind m (fun x => k))
  (at level 10, x name, m at level 100, k at level 200) : io_scope.

(** *** [s3.get_object] *)

(** The part of the response the handler uses: [Body], read to its end. *)
Record get_object_output := GetObjectOutput { Body : list byte }.

(** [s3.get_object(Bucket=.., Key=..)].  Before anything is sent the client
    matches the bucket name against a pattern, which raises the built-in
    [TypeError] when the name is not a [str], and then validates the
    parameters, which refuses a key that is not a [str].  For two [str]
    arguments the request is counted as sent and the answer is the one of
    [s3_objects]; a name the client itself turns down (an empty key, a bucket
    name outside the pattern) is among the answers that are errors. *)
Definition s3_get_object (Bucket Key : pyval) : io get_object_output := fun w =>
  match Bucket with
  | PStr b =>
      match Key with
      | PStr k =>
          match s3_objects w b k with
          | inr body => (Returned (GetObjectOutput body), w, [GetObject b k])
          | inl code => (Raised (ClientError OpGetObject code), w, [GetObject b k])
          end
      | _ => (Raised (ParamValidationError OpGetObject), w, [])
      end
  | _ => (Raised TypeError, w, [])
  end.

(** The exception of [get_object] when its arguments are not both [str]:
    the bucket name is looked at first. *)
Definition get_object_refusal (Bucket : pyval) : exn :=
  match Bucket with
  | PStr _ => ParamValidationError OpGetObject
  | _ => TypeError
  end.

(** *** [dynamodb.put_item] *)

(** The [str] held by an attribute value [{'S': v}]. *)
Definition attr_S (a : pyval) : option pystr :=
  match a with
  | PDict kvs =>
      match dict_lookup kvs (lit "S") with
      | Some (PStr s) => Some s
      | _ => None
      end
  | _ => None
  end.

(** The attribute [name] of an item, when it is a string attribute. *)
Definition item_attr (name : pystr) (Item : pyval) : option pystr :=
  match Item with
  | PDict kvs =>
      match dict_lookup kvs name with
      | Some a => attr_S a
      | None => None
      end
  | _ => None
  end.

(** Modelled from the spec: the key schema of the table, which the source
    does not declare.  The table is keyed by the string attribute [id]. *)
Definition item_key (Item : pyval) : option pystr := item_attr (lit "id") Item.

Definition is_str (v : pyval) : bool :=
  match v with PStr _ => true | _ => false end.

Definition is_bool (v : pyval) : bool :=
  match v with PBool _ => true | _ => false end.

Definition tag_in (ty : pystr) (tags : list string) : bool :=
  existsb (fun t => bool_decide (ty = lit t)) tags.

(** The client's check of an attribute value: a dict with exactly one type
    tag, whose value has the type of the tag.  [S], [N] and [B] take a
    [str], the sets a list of them, [BOOL] and [NULL] a [bool], [L] a list
    and [M] a dict of attribute values; any other tag is refused. *)
Fixpoint attr_valid (a : pyval) : bool :=
  match a with
  | PDict [(ty, v)] =>
      if tag_in ty ["S"; "N"; "B"]%string then is_str v
      else if tag_in ty ["SS"; "NS"; "BS"]%string then
        match v with PList xs => forallb is_str xs | _ => false end
      else if tag_in ty ["BOOL"; "NULL"]%string then is_bool v
      else if tag_in ty ["L"]%string then
        match v with PList xs => forallb attr_valid xs | _ => false end
      else if tag_in ty ["M"]%string then
        match v with
        | PDict kvs => forallb (fun kv => attr_valid (snd kv)) kvs
        | _ => false
        end
      else false
  | _ => false
  end.

Definition item_valid (Item : pyval) : bool :=
  match Item with
  | PDict kvs => forallb (fun kv => attr_valid (snd kv)) kvs
  | _ => false
  end.

Definition has_key (k : pystr) (it : pyval) : bool :=
  bool_decide (item_key it = Some k).

(** Modelled from the spec: a put replaces the item that has the same key,
    if there is one, and leaves every other item alone. *)
Definition table_put (k : pystr) (Item : pyval) (items : list pyval) : list pyval :=
  Item :: List.filter (fun it => negb (has_key k it)) items.

Definition set_tables (w : world) (t : gmap pystr (list pyval)) : world :=
  World (s3_objects w) (dynamodb_rejects w) t.

(** [dynamodb.put_item(TableName=.., Item=..)] *)
Definition dynamodb_put_item (TableName : pystr) (Item : pyval) : io unit := fun w =>
  if negb (item_valid Item) then (Raised (ParamValidationError OpPutItem), w, [])
  else
    let sent := [PutItem TableName Item] in
    match dynamodb_rejects w TableName Item with
    | Some code => (Raised (ClientError OpPutItem code), w, sent)
    | None =>
        match dynamodb_tables w !! TableName with
        | None => (Raised (ClientError OpPutItem "ResourceNotFoundException"), w, sent)
        | Some items =>
            match item_key Item with
            | None => (Raised (ClientError OpPutItem "ValidationException"), w, sent)
            | Some k =>
                (Returned tt,
                 set_tables w (<[TableName := table_put k Item items]> (dynamodb_tables w)),
                 sent)
            end
        end
    end.

End Aws.
Export Aws.

(** ** The handler *)

Local Open Scope io_scope.

(** [event['Records'][0]], the only part of the event that is read. *)
Definition first_record (event : pyval) : outcome pyval :=
  getpath event [PStr (lit "Records"); PInt 0].

(** [event['Records'][0]['s3']['bucket']['name']] and
    [event['Records'][0]['s3']['object']['key']] as subscript chains. *)
Definition bucket_name_path : list pyval :=
  [PStr (lit "Records"); PInt 0; PStr (lit "s3"); PStr (lit "bucket"); PStr (lit "name")].

Definition object_key_path : list pyval :=
  [PStr (lit "Records"); PInt 0; PStr (lit "s3"); PStr (lit "object"); PStr (lit "key")].

(** The item the handler builds. *)
Definition make_item (object_key : pyval) (processed_data : pystr) : pyval :=
  PDict [ (lit "id", PDict [(lit "S", object_key)]);
          (lit "data", PDict [(lit "S", PStr processed_data)]) ].

(** The value returned on success. *)
Definition success : pyval :=
  PDict [ (lit "statusCode", PInt 200);
          (lit "body", PStr (json_dumps_str (lit "Data processed successfully!"))) ].

(** The processing step of the handler: [processed_data = data.upper()]. *)
Definition transform (data : pystr) : pystr := str_upper data.

Definition lambda_handler (event context : pyval) : io pyval :=
  let* bucket_name := lift (getpath event bucket_name_path) in
  let* object_key := lift (getpath event object_key_path) in
  let* response := s3_get_object bucket_name object_key in
  let* data := lift (decode_utf8 (Body response)) in
  let processed_data := transform data in
  let item := make_item object_key processed_data in
  let* _ := dynamodb_put_item (lit "processed-data") item in
  ret success.

(** The table the handler writes to. *)
Definition table_name : pystr := lit "processed-data".

(** No table holds two items with the same [id]. *)
Definition ids_unique (w : world) : Prop :=
  forall t items, dynamodb_tables w !! t = Some items ->
    forall k, (length (List.filter (has_key k) items) <= 1)%nat.

(** The three components of a run. *)
Definition result_of {A} (x : outcome A * world * list request) : outcome A := fst (fst x).
Definition world_of {A} (x : outcome A * world * list request) : world := snd (fst x).
Definition log_of {A} (x : outcome A * world * list request) : list request := snd x.

(** The reads from object storage and the writes to the key-value store
    among the requests of a run. *)
Definition is_read (q : request) : bool :=
  match q with GetObject _ _ => true | PutItem _ _ => false end.

Definition is_write (q : request) : bool :=
  match q with PutItem _ _ => true | GetObject _ _ => false end.

Definition reads (log : list request) : list request := List.filter is_read log.
Definition writes (log : list request) : list request := List.filter is_write log.

(** ** A sample run: the object [notes.txt] holding [hello world] *)

Module Sample.

Definition record (bucket key : string) : pyval :=
  PDict [ (lit "s3",
           PDict [ (lit "bucket", PDict [(lit "name", PStr (lit bucket))]);
                   (lit "object", PDict [(lit "key", PStr (lit key))]) ]) ].

Definition event : pyval :=
  PDict [ (lit "Records", PList [record "uploads" "notes.txt"]) ].

(** The same first record, followed by a second one. *)
Definition event_two_records : pyval :=
  PDict [ (lit "Records", PList [record "uploads" "notes.txt"; record "uploads" "other.txt"]) ].

(** An event whose record has no [object] entry. *)
Definition event_no_key : pyval :=
  PDict [ (lit "Records",
           PList [PDict [(lit "s3", PDict [(lit "bucket", PDict [(lit "name", PStr (lit "uploads"))])])]]) ].

(** An event for an object that is not in the bucket. *)
Definition event_absent : pyval :=
  PDict [ (lit "Records", PList [record "uploads" "absent.txt"]) ].

(** An event for an object whose bytes are not UTF-8. *)
Definition event_binary : pyval :=
  PDict [ (lit "Records", PList [record "uploads" "blob.bin"]) ].

Definition context : pyval := PNone.

Definition bucket (content : string) : pystr -> pystr -> string + list byte :=
  fun b k =>
    if bool_decide (b = lit "uploads") then
      if bool_decide (k = lit "notes.txt") then inr (list_byte_of_string content)
      else if bool_decide (k = lit "blob.bin") then inr [xff; xfe]
      else inl "NoSuchKey"%string
    else inl "NoSuchBucket"%string.

(** The table exists and is empty. *)
Definition world0 : world :=
  World (bucket "hello world") (fun _ _ => None) {[ lit "processed-data" := [] ]}.

(** The table was never created. *)
Definition world_no_table : world :=
  World (bucket "hello world") (fun _ _ => None) ∅.

(** A second invocation for the same key, after the object was rewritten:
    the table is the one the first invocation left. *)
Definition world1 : world := world_of (lambda_handler event context world0).

Definition world1_rewritten : world :=
  World (bucket "second draft") (fun _ _ => None) (dynamodb_tables world1).

Definition world2 : world := world_of (lambda_handler event context world1_rewritten).

(** A third object in the same bucket, and an event whose object key is a
    number. *)
Definition event_other : pyval :=
  PDict [ (lit "Records", PList [record "uploads" "other.txt"]) ].

Definition event_numeric_key : pyval :=
  PDict [ (lit "Records",
           PList [PDict [(lit "s3",
             PDict [ (lit "bucket", PDict [(lit "name", PStr (lit "uploads"))]);
                     (lit "object", PDict [(lit "key", PInt 7)]) ])]]) ].

Definition bucket_two : pystr -> pystr -> string + list byte :=
  fun b k =>
    if bool_decide (b = lit "uploads") then
      if bool_decide (k = lit "notes.txt") then inr (list_byte_of_string "hello world")
      else if bool_decide (k = lit "other.txt") then inr (list_byte_of_string "abc")
      else inl "NoSuchKey"%string
    else inl "NoSuchBucket"%string.

Definition world0_two : world :=
  World bucket_two (fun _ _ => None) {[ lit "processed-data" := [] ]}.

Definition world1_two : world := world_of (lambda_handler event context world0_two).

Definition world2_two : world := world_of (lambda_handler event_other context world1_two).

(** An event whose bucket name is [null]. *)
Definition event_null_bucket : pyval :=
  PDict [ (lit "Records",
           PList [PDict [(lit "s3",
             PDict [ (lit "bucket", PDict [(lit "name", PNone)]);
                     (lit "object", PDict [(lit "key", PStr (lit "notes.txt"))]) ])]]) ].

(** The sample event with the other fields a notification carries. *)
Definition event_with_metadata : pyval :=
  PDict [ (lit "Records",
           PList [PDict [ (lit "eventName", PStr (lit "ObjectCreated:Put"));
                          (lit "s3",
                           PDict [ (lit "bucket",
                                    PDict [ (lit "name", PStr (lit "uploads"));
                                            (lit "arn", PStr (lit "arn:aws:s3:::uploads")) ]);
                                   (lit "object",
                                    PDict [ (lit "key", PStr (lit "notes.txt"));
                                            (lit "size", PInt 11) ]) ]) ]]) ].

End Sample.

(** The arguments of [get_object] are not both [str]. *)
Definition not_both_str (bn ok : pyval) : Prop :=
  forall b k, ~ (bn = PStr b /\ ok = PStr k).

(** ** Unicode scalar values, and checks of the case table *)

(** A code point that is a Unicode scalar value: at most U+10FFFF and not a
    surrogate.  These are the code points a [str] must be made of to be
    encodable as UTF-8. *)
Definition is_scalar (c : N) : bool := (c <? 0x110000) && negb (is_surrogate c).

Definition range_image_scalar (r : case_range) : bool :=
  forallb (fun c => is_scalar (c - cr_lo r + cr_upper_lo r)) (range_members r).

Definition special_image_scalar (e : N * list N) : bool := forallb is_scalar (snd e).

(** A one-to-many mapping yields two or three code points. *)
Definition special_length_ok (e : N * list N) : bool :=
  (2 <=? length (snd e))%nat && (length (snd e) <=? 3)%nat.

(** * Properties *)

(** ** Upper-casing *)

Section UpperCase.

Lemma In_progression (n : nat) : forall (c0 s : N) (k : nat),
  (k < n)%nat -> In (c0 + N.of_nat k * s) (progression n c0 s).
Proof.
  induction n as [|n IH]; intros c0 s k Hk; [lia|].
  destruct k as [|k]; simpl progression.
  - left. change (N.of_nat 0) with 0. lia.
  - right. replace (c0 + N.of_nat (S k) * s) with ((c0 + s) + N.of_nat k * s).
    + apply IH. lia.
    + rewrite Nat2N.inj_succ, N.mul_succ_l. lia.
Qed.

Lemma in_range_members (c : N) (r : case_range) :
  in_range c r = true -> In c (range_members r).
Proof.
  unfold in_range, range_members.
  destruct (N.ltb_spec c (cr_lo r)) as [|Hlo]; [discriminate|].
  destruct (N.ltb_spec (cr_hi r) c) as [|Hhi]; [discriminate|].
  intros Hmod%N.eqb_eq.
  set (q := (c - cr_lo r) / cr_stride r).
  assert (Hc : c = cr_lo r + N.of_nat (N.to_nat q) * cr_stride r).
  { rewrite N2Nat.id.
    pose proof (N.div_mod' (c - cr_lo r) (cr_stride r)) as Hdm.
    rewrite Hmod in Hdm. fold q in Hdm. lia. }
  rewrite Hc at 1. apply In_progression.
  assert (q <= (cr_hi r - cr_lo r) / cr_stride r).
  { apply N.Div0.div_le_mono. lia. }
  lia.
Qed.

Lemma assoc_cp_In {A} (c : N) (l : list (N * A)) (a : A) :
  assoc_cp c l = Some a -> In (c, a) l.
Proof.
  induction l as [|[c' a'] l IH]; simpl; [discriminate|].
  destruct (N.eqb_spec c' c) as [->|]; intros H.
  - left. congruence.
  - right. auto.
Qed.

Lemma is_fixed_spec (c : N) : is_fixed c = true -> upper_cp c = [c].
Proof. unfold is_fixed. intros H. apply bool_decide_eq_true in H. exact H. Qed.

Lemma special_upper_closed :
  forallb special_image_fixed special_upper = true.
Proof. vm_compute. reflexivity. Qed.

Lemma simple_upper_closed :
  forallb range_image_fixed simple_upper_ranges = true.
Proof. vm_compute. reflexivity. Qed.

(** Every code point in the image of the mapping is left alone by it. *)
Lemma upper_cp_image_fixed (c u : N) :
  In u (upper_cp c) -> upper_cp u = [u].
Proof.
  unfold upper_cp at 1.
  destruct (assoc_cp c special_upper) as [us|] eqn:Hsp.
  - intros Hu. apply assoc_cp_In in Hsp.
    pose proof special_upper_closed as Hall.
    rewrite forallb_forall in Hall. specialize (Hall _ Hsp).
    unfold special_image_fixed in Hall. simpl snd in Hall.
    rewrite forallb_forall in Hall. apply is_fixed_spec. auto.
  - destruct (find (in_range c) simple_upper_ranges) as [r|] eqn:Hfind.
    + intros [<-|[]]. apply find_some in Hfind as [Hr Hin].
      pose proof simple_upper_closed as Hall.
      rewrite forallb_forall in Hall. specialize (Hall _ Hr).
      unfold range_image_fixed in Hall. rewrite forallb_forall in Hall.
      apply is_fixed_spec, Hall, in_range_members, Hin.
    + intros [<-|[]]. unfold upper_cp. rewrite Hsp, Hfind. reflexivity.
Qed.

Lemma flat_map_fixed (us : list N) :
  (forall u, In u us -> upper_cp u = [u]) -> str_upper us = us.
Proof.
  unfold str_upper. induction us as [|u us IH]; intros H; simpl; [reflexivity|].
  rewrite (H u) by (left; reflexivity). simpl. f_equal.
  apply IH. intros v Hv. apply H. right. exact Hv.
Qed.

Lemma str_upper_app (s t : pystr) : str_upper (s ++ t) = str_upper s ++ str_upper t.
Proof. unfold str_upper. apply flat_map_app. Qed.

Lemma str_upper_idempotent (s : pystr) : str_upper (str_upper s) = str_upper s.
Proof.
  induction s as [|c s IH]; [reflexivity|].
  change (str_upper (c :: s)) with (upper_cp c ++ str_upper s).
  rewrite str_upper_app, IH. f_equal.
  apply flat_map_fixed. intros u. apply upper_cp_image_fixed.
Qed.

Lemma upper_cp_ascii_table :
  forallb (fun c => bool_decide (upper_cp c = [ascii_upper c])) (progression 128 0 1) = true.
Proof. vm_compute. reflexivity. Qed.

(** On ASCII the mapping is [a-z] to [A-Z], one code point for one. *)
Lemma upper_cp_ascii (c : N) : c < 128 -> upper_cp c = [ascii_upper c].
Proof.
  intros Hc. pose proof upper_cp_ascii_table as Hall.
  rewrite forallb_forall in Hall.
  eapply bool_decide_eq_true, Hall.
  replace c with (0 + N.of_nat (N.to_nat c) * 1) at 1 by lia.
  apply In_progression. lia.
Qed.

Lemma str_upper_ascii (s : pystr) :
  Forall (fun c => c < 128) s -> str_upper s = map ascii_upper s.
Proof.
  induction 1 as [|c s Hc _ IH]; [reflexivity|].
  change (str_upper (c :: s)) with (upper_cp c ++ str_upper s).
  rewrite upper_cp_ascii, IH by exact Hc. reflexivity.
Qed.

Example upper_hello : str_upper (lit "hello world") = lit "HELLO WORLD".
Proof. reflexivity. Qed.

(** U+00DF (sharp s) becomes [SS], and the result is stable. *)
Example upper_sharp_s : str_upper [0xDF] = lit "SS".
Proof. reflexivity. Qed.

End UpperCase.

(** ** Subscripts *)

Section Subscripts.

Lemma getitem_raises (v k : pyval) (e : exn) :
  getitem v k = Raised e -> failure_kind_of e = MalformedInput.
Proof.
  destruct v, k; simpl;
    repeat match goal with
           | |- context [match ?x with _ => _ end] => destruct x
           end;
    intros H; inversion H; reflexivity.
Qed.

Lemma getpath_raises (ks : list pyval) : forall (v : pyval) (e : exn),
  getpath v ks = Raised e -> failure_kind_of e = MalformedInput.
Proof.
  induction ks as [|k ks IH]; intros v e; simpl; [discriminate|].
  destruct (getitem v k) as [x|e'] eqn:Hk.
  - apply IH.
  - intros H. inversion H; subst. eapply getitem_raises, Hk.
Qed.

Lemma getpath_app (ks1 ks2 : list pyval) : forall v : pyval,
  getpath v (ks1 ++ ks2) =
    match getpath v ks1 with
    | Returned x => getpath x ks2
    | Raised e => Raised e
    end.
Proof.
  induction ks1 as [|k ks1 IH]; intros v; simpl; [reflexivity|].
  destruct (getitem v k); [apply IH | reflexivity].
Qed.

(** Both chains of the handler go through [event['Records'][0]]. *)
Lemma bucket_name_through_first_record (event : pyval) :
  getpath event bucket_name_path =
    match first_record event with
    | Returned r => getpath r [PStr (lit "s3"); PStr (lit "bucket"); PStr (lit "name")]
    | Raised e => Raised e
    end.
Proof. unfold first_record. rewrite <- getpath_app. reflexivity. Qed.

Lemma object_key_through_first_record (event : pyval) :
  getpath event object_key_path =
    match first_record event with
    | Returned r => getpath r [PStr (lit "s3"); PStr (lit "object"); PStr (lit "key")]
    | Raised e => Raised e
    end.
Proof. unfold first_record. rewrite <- getpath_app. reflexivity. Qed.

End Subscripts.

(** ** Items and tables *)

Section Tables.

Lemma item_valid_make_item (k d : pystr) : item_valid (make_item (PStr k) d) = true.
Proof. reflexivity. Qed.

Lemma item_key_make_item (k d : pystr) : item_key (make_item (PStr k) d) = Some k.
Proof. reflexivity. Qed.

Lemma item_data_make_item (k d : pystr) :
  item_attr (lit "data") (make_item (PStr k) d) = Some d.
Proof. reflexivity. Qed.

Lemma has_key_true (k : pystr) (it : pyval) : has_key k it = true <-> item_key it = Some k.
Proof. unfold has_key. apply bool_decide_eq_true. Qed.

Lemma has_key_false (k : pystr) (it : pyval) : has_key k it = false <-> item_key it <> Some k.
Proof. unfold has_key. apply bool_decide_eq_false. Qed.

Lemma filter_has_key_removed (k : pystr) (items : list pyval) :
  List.filter (has_key k) (List.filter (fun it => negb (has_key k it)) items) = [].
Proof.
  induction items as [|it items IH]; simpl; [reflexivity|].
  destruct (has_key k it) eqn:E; simpl; [exact IH|]. rewrite E. exact IH.
Qed.

Lemma filter_has_key_other (k k' : pystr) (items : list pyval) :
  k' <> k ->
  List.filter (has_key k') (List.filter (fun it => negb (has_key k it)) items)
    = List.filter (has_key k') items.
Proof.
  intros Hne. induction items as [|it items IH]; simpl; [reflexivity|].
  destruct (has_key k it) eqn:E; simpl.
  - destruct (has_key k' it) eqn:E'; [|exact IH].
    apply has_key_true in E, E'. congruence.
  - rewrite IH. reflexivity.
Qed.

(** After a put under key [k], the table holds the new item and no other
    item with that key. *)
Lemma table_put_same (k : pystr) (it : pyval) (items : list pyval) :
  item_key it = Some k ->
  List.filter (has_key k) (table_put k it items) = [it].
Proof.
  intros Hk. unfold table_put. simpl.
  apply has_key_true in Hk. rewrite Hk, filter_has_key_removed. reflexivity.
Qed.

(** The items under the other keys are the ones that were there. *)
Lemma table_put_other (k k' : pystr) (it : pyval) (items : list pyval) :
  item_key it = Some k -> k' <> k ->
  List.filter (has_key k') (table_put k it items) = List.filter (has_key k') items.
Proof.
  intros Hk Hne. unfold table_put. simpl.
  assert (has_key k' it = false) as -> by (apply has_key_false; congruence).
  apply filter_has_key_other, Hne.
Qed.

Lemma table_put_unique (k : pystr) (it : pyval) (items : list pyval) :
  item_key it = Some k ->
  (forall k', (length (List.filter (has_key k') items) <= 1)%nat) ->
  forall k', (length (List.filter (has_key k') (table_put k it items)) <= 1)%nat.
Proof.
  intros Hk Hu k'. destruct (decide (k' = k)) as [->|Hne].
  - rewrite table_put_same by exact Hk. simpl. lia.
  - rewrite table_put_other by assumption. apply Hu.
Qed.

Lemma ids_unique_put (w : world) (t k : pystr) (it : pyval) (items : list pyval) :
  ids_unique w ->
  dynamodb_tables w !! t = Some items ->
  item_key it = Some k ->
  ids_unique (set_tables w (<[t := table_put k it items]> (dynamodb_tables w))).
Proof.
  intros Hu Ht Hk t' items'. simpl.
  destruct (decide (t = t')) as [<-|Hne].
  - rewrite lookup_insert_eq. intros [= <-].
    apply table_put_unique; [exact Hk|]. apply (Hu t items Ht).
  - rewrite lookup_insert_ne by exact Hne. apply Hu.
Qed.

End Tables.

(** ** The runs of the handler, stage by stage *)

Section Runs.

Variables (event context : pyval) (w : world).

(** The first chain fails: nothing else is evaluated. *)
Lemma run_bucket_name_raises (e : exn) :
  getpath event bucket_name_path = Raised e ->
  lambda_handler event context w = (Raised e, w, []).
Proof. intros H. unfold lambda_handler, bind. rewrite H. reflexivity. Qed.

(** The second chain fails. *)
Lemma run_object_key_raises (bucket_name : pyval) (e : exn) :
  getpath event bucket_name_path = Returned bucket_name ->
  getpath event object_key_path = Raised e ->
  lambda_handler event context w = (Raised e, w, []).
Proof. intros Hb Hk. unfold lambda_handler, bind. rewrite Hb, Hk. reflexivity. Qed.

(** S3 answers with an error. *)
Lemma run_get_object_fails (b k : pystr) (code : string) :
  getpath event bucket_name_path = Returned (PStr b) ->
  getpath event object_key_path = Returned (PStr k) ->
  s3_objects w b k = inl code ->
  lambda_handler event context w = (Raised (ClientError OpGetObject code), w, [GetObject b k]).
Proof.
  intros Hb Hk Hs3. unfold lambda_handler, bind. rewrite Hb, Hk. simpl.
  rewrite Hs3. reflexivity.
Qed.

(** The object is read and is not UTF-8. *)
Lemma run_decode_fails (b k : pystr) (body : list byte) (e : exn) :
  getpath event bucket_name_path = Returned (PStr b) ->
  getpath event object_key_path = Returned (PStr k) ->
  s3_objects w b k = inr body ->
  decode_utf8 body = Raised e ->
  lambda_handler event context w = (Raised e, w, [GetObject b k]).
Proof.
  intros Hb Hk Hs3 Hd. unfold lambda_handler, bind. rewrite Hb, Hk. simpl.
  rewrite Hs3. simpl. rewrite Hd. reflexivity.
Qed.

(** The object is read and decoded; what happens next is the put. *)
Lemma run_until_put (b k : pystr) (body : list byte) (s : pystr) :
  getpath event bucket_name_path = Returned (PStr b) ->
  getpath event object_key_path = Returned (PStr k) ->
  s3_objects w b k = inr body ->
  decode_utf8 body = Returned s ->
  lambda_handler event context w =
    match dynamodb_put_item table_name (make_item (PStr k) (transform s)) w with
    | (Returned _, w', log) => (Returned success, w', GetObject b k :: log)
    | (Raised e, w', log) => (Raised e, w', GetObject b k :: log)
    end.
Proof.
  intros Hb Hk Hs3 Hd. unfold lambda_handler, bind. rewrite Hb, Hk. simpl.
  rewrite Hs3. simpl. rewrite Hd. simpl.
  change (lit "processed-data") with table_name.
  destruct (dynamodb_put_item table_name (make_item (PStr k) (transform s)) w)
    as [[[[]|e] w'] log]; simpl; rewrite ?app_nil_r; reflexivity.
Qed.

(** The whole run when every stage goes through. *)
Lemma run_success (b k : pystr) (body : list byte) (s : pystr) (items : list pyval) :
  getpath event bucket_name_path = Returned (PStr b) ->
  getpath event object_key_path = Returned (PStr k) ->
  s3_objects w b k = inr body ->
  decode_utf8 body = Returned s ->
  dynamodb_rejects w table_name (make_item (PStr k) (transform s)) = None ->
  dynamodb_tables w !! table_name = Some items ->
  lambda_handler event context w =
    (Returned success,
     set_tables w (<[table_name := table_put k (make_item (PStr k) (transform s)) items]>
                     (dynamodb_tables w)),
     [GetObject b k; PutItem table_name (make_item (PStr k) (transform s))]).
Proof.
  intros Hb Hk Hs3 Hd Hrej Ht.
  rewrite (run_until_put b k body s Hb Hk Hs3 Hd).
  unfold dynamodb_put_item. rewrite item_valid_make_item. simpl negb. cbv iota.
  rewrite Hrej, Ht, item_key_make_item. reflexivity.
Qed.

(** A put that returns has stored the item under its key. *)
Lemma put_item_returned (t : pystr) (it : pyval) (w' : world) (log : list request) :
  dynamodb_put_item t it w = (Returned tt, w', log) ->
  exists k items,
    dynamodb_rejects w t it = None /\
    dynamodb_tables w !! t = Some items /\
    item_key it = Some k /\
    w' = set_tables w (<[t := table_put k it items]> (dynamodb_tables w)) /\
    log = [PutItem t it].
Proof.
  unfold dynamodb_put_item.
  destruct (item_valid it); simpl; [|discriminate].
  destruct (dynamodb_rejects w t it); [discriminate|].
  destruct (dynamodb_tables w !! t) as [items|]; [|discriminate].
  destruct (item_key it) as [k|]; [|discriminate].
  intros [= <- <-]. exists k, items. auto.
Qed.

(** A put that raises has left the world as it was. *)
Lemma put_item_raised (t : pystr) (it : pyval) (e : exn) (w' : world) (log : list request) :
  dynamodb_put_item t it w = (Raised e, w', log) ->
  w' = w /\ failure_kind_of e = StorageWriteError.
Proof.
  unfold dynamodb_put_item.
  destruct (item_valid it); simpl.
  - destruct (dynamodb_rejects w t it); [intros [= <- <-]; auto|].
    destruct (dynamodb_tables w !! t) as [items|]; [|intros [= <- <-]; auto].
    destruct (item_key it) as [k|]; [discriminate|intros [= <- <-]; auto].
  - intros [= <- <-]. auto.
Qed.

(** A run that returns went through every stage. *)
Lemma run_returned_inv (r : pyval) (w' : world) (log : list request) :
  lambda_handler event context w = (Returned r, w', log) ->
  exists b k body s items,
    getpath event bucket_name_path = Returned (PStr b) /\
    getpath event object_key_path = Returned (PStr k) /\
    s3_objects w b k = inr body /\
    decode_utf8 body = Returned s /\
    dynamodb_rejects w table_name (make_item (PStr k) (transform s)) = None /\
    dynamodb_tables w !! table_name = Some items /\
    r = success /\
    w' = set_tables w (<[table_name := table_put k (make_item (PStr k) (transform s)) items]>
                         (dynamodb_tables w)) /\
    log = [GetObject b k; PutItem table_name (make_item (PStr k) (transform s))].
Proof.
  destruct (getpath event bucket_name_path) as [bn|e] eqn:Hb;
    [|rewrite (run_bucket_name_raises e Hb); discriminate].
  destruct (getpath event object_key_path) as [ok|e] eqn:Hk;
    [|rewrite (run_object_key_raises bn e Hb Hk); discriminate].
  assert (Hstr : (exists b k, bn = PStr b /\ ok = PStr k) \/
                 exists e, lambda_handler event context w = (Raised e, w, [])).
  { unfold lambda_handler, bind. rewrite Hb, Hk. simpl.
    destruct bn; try (right; eexists; reflexivity).
    destruct ok; try (right; eexists; reflexivity).
    left. eauto. }
  destruct Hstr as [(b & k & -> & ->)|[e Hbad]]; [|rewrite Hbad; discriminate].
  destruct (s3_objects w b k) as [code|body] eqn:Hs3;
    [rewrite (run_get_object_fails b k code Hb Hk Hs3); discriminate|].
  destruct (decode_utf8 body) as [s|e] eqn:Hd;
    [|rewrite (run_decode_fails b k body e Hb Hk Hs3 Hd); discriminate].
  rewrite (run_until_put b k body s Hb Hk Hs3 Hd).
  destruct (dynamodb_put_item table_name (make_item (PStr k) (transform s)) w)
    as [[[[]|e] w1] log1] eqn:Hput; [|discriminate].
  intros [= <- <- <-].
  apply put_item_returned in Hput as (k' & items & Hrej & Ht & Hkey & -> & ->).
  rewrite item_key_make_item in Hkey. injection Hkey as <-.
  exists b, k, body, s, items. repeat split; assumption.
Qed.

(** Whatever the run does, the world afterwards is the one before, or the one
    before with one item put in the table. *)
Lemma run_world :
  world_of (lambda_handler event context w) = w \/
  exists k it items,
    dynamodb_tables w !! table_name = Some items /\
    item_key it = Some k /\
    world_of (lambda_handler event context w)
      = set_tables w (<[table_name := table_put k it items]> (dynamodb_tables w)).
Proof.
  destruct (lambda_handler event context w) as [[[r|e] w'] log] eqn:Hrun.
  - right. apply run_returned_inv in Hrun
      as (b & k & body & s & items & _ & _ & _ & _ & _ & Ht & _ & -> & _).
    exists k, (make_item (PStr k) (transform s)), items.
    split; [exact Ht | split; reflexivity].
  - left. revert Hrun.
    destruct (getpath event bucket_name_path) as [bn|e1] eqn:Hb;
      [|rewrite (run_bucket_name_raises e1 Hb); intros [= _ <- _]; reflexivity].
    destruct (getpath event object_key_path) as [ok|e1] eqn:Hk;
      [|rewrite (run_object_key_raises bn e1 Hb Hk); intros [= _ <- _]; reflexivity].
    assert (Hstr : (exists b k, bn = PStr b /\ ok = PStr k) \/
                   exists e0, lambda_handler event context w = (Raised e0, w, [])).
    { unfold lambda_handler, bind. rewrite Hb, Hk. simpl.
      destruct bn; try (right; eexists; reflexivity).
      destruct ok; try (right; eexists; reflexivity).
      left. eauto. }
    destruct Hstr as [(b & k & -> & ->)|[e0 Hbad]];
      [|rewrite Hbad; intros [= _ <- _]; reflexivity].
    destruct (s3_objects w b k) as [code|body] eqn:Hs3;
      [rewrite (run_get_object_fails b k code Hb Hk Hs3); intros [= _ <- _]; reflexivity|].
    destruct (decode_utf8 body) as [s|e1] eqn:Hd;
      [|rewrite (run_decode_fails b k body e1 Hb Hk Hs3 Hd); intros [= _ <- _]; reflexivity].
    rewrite (run_until_put b k body s Hb Hk Hs3 Hd).
    destruct (dynamodb_put_item table_name (make_item (PStr k) (transform s)) w)
      as [[[[]|e1] w1] log1] eqn:Hput; [discriminate|].
    intros [= _ <- _]. apply put_item_raised in Hput as [-> _]. reflexivity.
Qed.

End Runs.

(** ** The embedding on concrete inputs *)

Section Examples.

(** The example of the specification: the object [notes.txt] holding
    [hello world]. *)
Example run_notes :
  result_of (lambda_handler Sample.event Sample.context Sample.world0) = Returned success /\
  log_of (lambda_handler Sample.event Sample.context Sample.world0)
    = [GetObject (lit "uploads") (lit "notes.txt");
       PutItem (lit "processed-data")
         (make_item (PStr (lit "notes.txt")) (lit "HELLO WORLD"))] /\
  dynamodb_tables Sample.world1 !! lit "processed-data"
    = Some [make_item (PStr (lit "notes.txt")) (lit "HELLO WORLD")].
Proof. repeat split; vm_compute; reflexivity. Qed.

Example run_no_records :
  lambda_handler (PDict []) Sample.context Sample.world0
    = (Raised (KeyError (PStr (lit "Records"))), Sample.world0, []).
Proof. reflexivity. Qed.

Example run_empty_records :
  lambda_handler (PDict [(lit "Records", PList [])]) Sample.context Sample.world0
    = (Raised IndexError, Sample.world0, []).
Proof. reflexivity. Qed.

Example run_bucket_not_a_string :
  result_of (lambda_handler
    (PDict [(lit "Records",
       PList [PDict [(lit "s3",
         PDict [(lit "bucket", PDict [(lit "name", PInt 7)]);
                (lit "object", PDict [(lit "key", PStr (lit "notes.txt"))])])]])])
    Sample.context Sample.world0)
  = Raised TypeError.
Proof. reflexivity. Qed.

Example run_key_not_a_string :
  result_of (lambda_handler Sample.event_numeric_key Sample.context Sample.world0)
  = Raised (ParamValidationError OpGetObject).
Proof. reflexivity. Qed.

(** U+00E9 in two bytes; an overlong form and a surrogate are refused. *)
Example decode_e_acute : decode_utf8 [xc3; xa9] = Returned [0xE9].
Proof. reflexivity. Qed.

Example decode_overlong : decode_utf8 [xc0; x80] = Raised UnicodeDecodeError.
Proof. reflexivity. Qed.

Example decode_surrogate : decode_utf8 [xed; xa0; x80] = Raised UnicodeDecodeError.
Proof. reflexivity. Qed.

Example decode_truncated : decode_utf8 [xe2; x82] = Raised UnicodeDecodeError.
Proof. reflexivity. Qed.

(** [json.dumps] escapes the quote and what is not printable ASCII. *)
Example dumps_quote : json_dumps_str [34] = [34; 92; 34; 34].
Proof. reflexivity. Qed.

Example dumps_e_acute : json_dumps_str [0xE9] = [34] ++ lit "\u00e9" ++ [34].
Proof. reflexivity. Qed.

Example dumps_message_length :
  length (json_dumps_str (lit "Data processed successfully!")) = 30%nat.
Proof. reflexivity. Qed.

End Examples.


(** ** The contract of the handler *)

(** C1, as stated, fails: the notification is valid, the object exists, is
    readable and decodes, and yet the handler raises instead of returning 200,
    because the put is refused (here the table does not exist) and the handler
    lets that error through. *)
Lemma readable_object_but_put_refused :
  getpath Sample.event bucket_name_path = Returned (PStr (lit "uploads")) /\
  getpath Sample.event object_key_path = Returned (PStr (lit "notes.txt")) /\
  s3_objects Sample.world_no_table (lit "uploads") (lit "notes.txt")
    = inr (list_byte_of_string "hello world") /\
  decode_utf8 (list_byte_of_string "hello world") = Returned (lit "hello world") /\
  result_of (lambda_handler Sample.event Sample.context Sample.world_no_table)
    = Raised (ClientError OpPutItem "ResourceNotFoundException") /\
  dynamodb_tables (world_of (lambda_handler Sample.event Sample.context Sample.world_no_table))
    !! table_name = None.
Proof. repeat split; vm_compute; reflexivity. Qed.

(** C1, amended: for every valid notification referencing an existing
    readable object whose content decodes to [s], and provided the key-value
    store accepts the put (the table exists and the service does not refuse
    the request), the handler sends exactly one write, of the record with
    [id] the object key and [data] the upper-cased [s], the table then holds
    that record and no other under this id, and the result has [statusCode]
    200. *)
Theorem handler_stores_record_and_succeeds
    (event context : pyval) (w : world) (b k : pystr) (body : list byte) (s : pystr)
    (items : list pyval) :
  getpath event bucket_name_path = Returned (PStr b) ->
  getpath event object_key_path = Returned (PStr k) ->
  s3_objects w b k = inr body ->
  decode_utf8 body = Returned s ->
  dynamodb_rejects w table_name (make_item (PStr k) (str_upper s)) = None ->
  dynamodb_tables w !! table_name = Some items ->
  let run := lambda_handler event context w in
  let record := make_item (PStr k) (str_upper s) in
  (exists r, result_of run = Returned r /\
             getitem r (PStr (lit "statusCode")) = Returned (PInt 200)) /\
  writes (log_of run) = [PutItem table_name record] /\
  item_attr (lit "id") record = Some k /\
  item_attr (lit "data") record = Some (str_upper s) /\
  exists items', dynamodb_tables (world_of run) !! table_name = Some items' /\
                 List.filter (has_key k) items' = [record].
Proof.
  intros Hb Hk Hs3 Hd Hrej Ht run record. subst run.
  rewrite (run_success event context w b k body s items Hb Hk Hs3 Hd Hrej Ht).
  change (transform s) with (str_upper s). fold record.
  split; [exists success; split; reflexivity|].
  split; [reflexivity|].
  split; [reflexivity|].
  split; [reflexivity|].
  exists (table_put k record items). split.
  - simpl. apply lookup_insert_eq.
  - apply table_put_same. reflexivity.
Qed.

Lemma handler_stores_record_and_succeeds_witness :
  exists items',
    dynamodb_tables (world_of (lambda_handler Sample.event Sample.context Sample.world0))
      !! table_name = Some items' /\
    List.filter (has_key (lit "notes.txt")) items'
      = [make_item (PStr (lit "notes.txt")) (lit "HELLO WORLD")].
Proof.
  refine (proj2 (proj2 (proj2 (proj2
    (handler_stores_record_and_succeeds Sample.event Sample.context Sample.world0
       (lit "uploads") (lit "notes.txt") (list_byte_of_string "hello world")
       (lit "hello world") [] _ _ _ _ _ _))))); reflexivity.
Defined.

(** C2: the transform of the handler is string upper-casing, and it is
    idempotent on every string. *)
Theorem transform_is_upper_and_idempotent (s : pystr) :
  transform s = str_upper s /\ transform (transform s) = transform s.
Proof. split; [reflexivity|]. unfold transform. apply str_upper_idempotent. Qed.

(** C3, as stated, fails: on a successful run the status is 200 but the body
    is not the bare message; it is the message between two quote characters,
    as [json.dumps] writes a string. *)
Lemma success_body_is_not_bare_message :
  exists r w' log,
    lambda_handler Sample.event Sample.context Sample.world0 = (Returned r, w', log) /\
    getitem r (PStr (lit "statusCode")) = Returned (PInt 200) /\
    getitem r (PStr (lit "body")) <> Returned (PStr (lit "Data processed successfully!")).
Proof.
  eexists _, _, _. split; [reflexivity|]. split; [reflexivity|].
  vm_compute. discriminate.
Qed.

(** C3, amended: on every successful invocation the result has status 200 and
    its body is the JSON text of the message: the message
    [Data processed successfully!] enclosed in two quote characters (code
    point 34). *)
Theorem success_result_is_200_with_json_body
    (event context : pyval) (w w' : world) (r : pyval) (log : list request) :
  lambda_handler event context w = (Returned r, w', log) ->
  getitem r (PStr (lit "statusCode")) = Returned (PInt 200) /\
  getitem r (PStr (lit "body"))
    = Returned (PStr ([34] ++ lit "Data processed successfully!" ++ [34])).
Proof.
  intros Hrun. apply run_returned_inv in Hrun
    as (b & k & body & s & items & _ & _ & _ & _ & _ & _ & -> & _ & _).
  split; reflexivity.
Qed.

Lemma success_result_is_200_with_json_body_witness :
  getitem success (PStr (lit "statusCode")) = Returned (PInt 200) /\
  getitem success (PStr (lit "body"))
    = Returned (PStr ([34] ++ lit "Data processed successfully!" ++ [34])).
Proof.
  apply (success_result_is_200_with_json_body Sample.event Sample.context Sample.world0
           (world_of (lambda_handler Sample.event Sample.context Sample.world0))
           success
           (log_of (lambda_handler Sample.event Sample.context Sample.world0))).
  reflexivity.
Defined.

(** C4: when the notification references an object that S3 cannot return
    (missing or unreadable), the handler fails with a storage read error,
    sends no write, and leaves the world, the key-value store included, as it
    was. *)
Theorem unreadable_object_fails_without_write
    (event context : pyval) (w : world) (b k : pystr) (code : string) :
  getpath event bucket_name_path = Returned (PStr b) ->
  getpath event object_key_path = Returned (PStr k) ->
  s3_objects w b k = inl code ->
  let run := lambda_handler event context w in
  (exists e, result_of run = Raised e /\ failure_kind_of e = StorageReadError) /\
  writes (log_of run) = [] /\
  world_of run = w.
Proof.
  intros Hb Hk Hs3 run. subst run.
  rewrite (run_get_object_fails event context w b k code Hb Hk Hs3).
  split; [eexists; split; reflexivity|]. split; reflexivity.
Qed.

Lemma unreadable_object_fails_without_write_witness :
  world_of (lambda_handler Sample.event_absent Sample.context Sample.world0) = Sample.world0.
Proof.
  refine (proj2 (proj2
    (unreadable_object_fails_without_write Sample.event_absent Sample.context Sample.world0
       (lit "uploads") (lit "absent.txt") "NoSuchKey" _ _ _))); reflexivity.
Defined.

(** C5: when the notification lacks [bucket.name] or [object.key] (or the
    [Records] list), so that one of the two subscript chains raises, the
    handler fails with a malformed-input error before any request is sent:
    the log is empty and the world is untouched. *)
Theorem missing_field_fails_before_io (event context : pyval) (w : world) :
  (exists e, getpath event bucket_name_path = Raised e) \/
  (exists e, getpath event object_key_path = Raised e) ->
  let run := lambda_handler event context w in
  (exists e, result_of run = Raised e /\ failure_kind_of e = MalformedInput) /\
  log_of run = [] /\
  world_of run = w.
Proof.
  intros H run. subst run.
  destruct (getpath event bucket_name_path) as [bn|e] eqn:Hb.
  - destruct H as [[e H]|[e Hk]]; [discriminate|].
    rewrite (run_object_key_raises event context w bn e Hb Hk).
    split; [|split; reflexivity].
    exists e. split; [reflexivity|]. eapply getpath_raises, Hk.
  - rewrite (run_bucket_name_raises event context w e Hb).
    split; [|split; reflexivity].
    exists e. split; [reflexivity|]. eapply getpath_raises, Hb.
Qed.

Lemma missing_field_fails_before_io_witness :
  log_of (lambda_handler Sample.event_no_key Sample.context Sample.world0) = [].
Proof.
  refine (proj1 (proj2
    (missing_field_fails_before_io Sample.event_no_key Sample.context Sample.world0 _))).
  right. exists (KeyError (PStr (lit "object"))). reflexivity.
Defined.

(** C6: when the bytes fetched are not valid UTF-8, the handler fails with a
    decode error, sends no write, and leaves the world as it was. *)
Theorem invalid_utf8_fails_without_write
    (event context : pyval) (w : world) (b k : pystr) (body : list byte) :
  getpath event bucket_name_path = Returned (PStr b) ->
  getpath event object_key_path = Returned (PStr k) ->
  s3_objects w b k = inr body ->
  utf8_units (map Byte.to_N body) = None ->
  let run := lambda_handler event context w in
  result_of run = Raised UnicodeDecodeError /\
  failure_kind_of UnicodeDecodeError = DecodeError /\
  writes (log_of run) = [] /\
  world_of run = w.
Proof.
  intros Hb Hk Hs3 Hu run. subst run.
  assert (Hd : decode_utf8 body = Raised UnicodeDecodeError).
  { unfold decode_utf8. rewrite Hu. reflexivity. }
  rewrite (run_decode_fails event context w b k body _ Hb Hk Hs3 Hd).
  repeat split; reflexivity.
Qed.

Lemma invalid_utf8_fails_without_write_witness :
  result_of (lambda_handler Sample.event_binary Sample.context Sample.world0)
    = Raised UnicodeDecodeError.
Proof.
  refine (proj1
    (invalid_utf8_fails_without_write Sample.event_binary Sample.context Sample.world0
       (lit "uploads") (lit "blob.bin") [xff; xfe] _ _ _ _)); reflexivity.
Defined.

(** Every invocation, whether it returns or raises, keeps the ids of every
    table unique. *)
Lemma handler_preserves_ids_unique (event context : pyval) (w : world) :
  ids_unique w -> ids_unique (world_of (lambda_handler event context w)).
Proof.
  intros Hu.
  destruct (run_world event context w) as [->|(k & it & items & Ht & Hk & ->)];
    [exact Hu|].
  apply ids_unique_put; assumption.
Qed.

Lemma ids_unique_same_tables (w1 w2 : world) :
  dynamodb_tables w2 = dynamodb_tables w1 -> ids_unique w1 -> ids_unique w2.
Proof. unfold ids_unique. intros ->. auto. Qed.

(** C7: two invocations for the same object key, the second running on the
    table the first left (S3 may have changed in between).  After the first
    the table holds exactly one record for that id, whose [data] is the
    upper-cased content the first invocation read from its own bucket; after
    the second it still holds exactly one, and its [id] is the key and its
    [data] the upper-cased content the second invocation read: the later
    write wins.  Every invocation keeps ids unique. *)
Theorem same_key_twice_last_write_wins
    (ev1 ev2 ctx1 ctx2 : pyval) (w0 w1 env2 w2 : world) (r1 r2 : pyval)
    (log1 log2 : list request) (k : pystr) :
  ids_unique w0 ->
  getpath ev1 object_key_path = Returned (PStr k) ->
  getpath ev2 object_key_path = Returned (PStr k) ->
  lambda_handler ev1 ctx1 w0 = (Returned r1, w1, log1) ->
  dynamodb_tables env2 = dynamodb_tables w1 ->
  lambda_handler ev2 ctx2 env2 = (Returned r2, w2, log2) ->
  (forall event context w,
     ids_unique w -> ids_unique (world_of (lambda_handler event context w))) /\
  ids_unique w1 /\ ids_unique w2 /\
  exists b1 b2 body1 body2 s1 s2 items1 items2 record1 record2,
    getpath ev1 bucket_name_path = Returned (PStr b1) /\
    s3_objects w0 b1 k = inr body1 /\
    decode_utf8 body1 = Returned s1 /\
    getpath ev2 bucket_name_path = Returned (PStr b2) /\
    s3_objects env2 b2 k = inr body2 /\
    decode_utf8 body2 = Returned s2 /\
    dynamodb_tables w1 !! table_name = Some items1 /\
    List.filter (has_key k) items1 = [record1] /\
    item_attr (lit "id") record1 = Some k /\
    item_attr (lit "data") record1 = Some (str_upper s1) /\
    dynamodb_tables w2 !! table_name = Some items2 /\
    List.filter (has_key k) items2 = [record2] /\
    item_attr (lit "id") record2 = Some k /\
    item_attr (lit "data") record2 = Some (str_upper s2) /\
    record1 = make_item (PStr k) (str_upper s1) /\
    record2 = make_item (PStr k) (str_upper s2).
Proof.
  intros Hu0 Hk1 Hk2 Hrun1 Henv Hrun2.
  assert (Hu1 : ids_unique w1).
  { pose proof (handler_preserves_ids_unique ev1 ctx1 w0 Hu0) as H.
    rewrite Hrun1 in H. exact H. }
  assert (Hu2 : ids_unique w2).
  { pose proof (handler_preserves_ids_unique ev2 ctx2 env2
                  (ids_unique_same_tables w1 env2 Henv Hu1)) as H.
    rewrite Hrun2 in H. exact H. }
  split; [exact handler_preserves_ids_unique|]. split; [exact Hu1|]. split; [exact Hu2|].
  apply run_returned_inv in Hrun1
    as (b1 & k1 & body1 & s1 & items1 & Hb1 & Hk1' & Hs1 & Hd1 & _ & _ & _ & -> & _).
  apply run_returned_inv in Hrun2
    as (b2 & k2 & body2 & s2 & items2 & Hb2 & Hk2' & Hs2 & Hd2 & _ & _ & _ & -> & _).
  rewrite Hk1 in Hk1'. injection Hk1' as <-.
  rewrite Hk2 in Hk2'. injection Hk2' as <-.
  exists b1, b2, body1, body2, s1, s2,
    (table_put k (make_item (PStr k) (transform s1)) items1),
    (table_put k (make_item (PStr k) (transform s2)) items2),
    (make_item (PStr k) (str_upper s1)), (make_item (PStr k) (str_upper s2)).
  split; [exact Hb1|]. split; [exact Hs1|]. split; [exact Hd1|].
  split; [exact Hb2|]. split; [exact Hs2|]. split; [exact Hd2|].
  split; [simpl; apply lookup_insert_eq|].
  split; [apply table_put_same; reflexivity|].
  split; [apply item_key_make_item|]. split; [apply item_data_make_item|].
  split; [simpl; apply lookup_insert_eq|].
  split; [apply table_put_same; reflexivity|].
  split; [apply item_key_make_item|]. split; [apply item_data_make_item|].
  split; reflexivity.
Qed.

Lemma sample_world0_ids_unique : ids_unique Sample.world0.
Proof.
  intros t items Ht k. unfold Sample.world0 in Ht. simpl in Ht.
  apply lookup_singleton_Some in Ht as [_ <-]. simpl. lia.
Qed.

Lemma same_key_twice_last_write_wins_witness :
  exists items2 record2,
    dynamodb_tables Sample.world2 !! table_name = Some items2 /\
    List.filter (has_key (lit "notes.txt")) items2 = [record2] /\
    item_attr (lit "id") record2 = Some (lit "notes.txt") /\
    item_attr (lit "data") record2 = Some (lit "SECOND DRAFT").
Proof.
  destruct (same_key_twice_last_write_wins
              Sample.event Sample.event Sample.context Sample.context
              Sample.world0 Sample.world1 Sample.world1_rewritten Sample.world2
              success success
              (log_of (lambda_handler Sample.event Sample.context Sample.world0))
              (log_of (lambda_handler Sample.event Sample.context Sample.world1_rewritten))
              (lit "notes.txt")
              sample_world0_ids_unique eq_refl eq_refl eq_refl eq_refl eq_refl)
    as (_ & _ & _ & b1 & b2 & body1 & body2 & s1 & s2 & items1 & items2
        & record1 & record2
        & _ & _ & _ & Hb2 & Hs2 & Hd2 & _ & _ & _ & _ & Ht2 & Hf2 & Hid2 & Hdata2 & _).
  exists items2, record2. split; [exact Ht2|]. split; [exact Hf2|]. split; [exact Hid2|].
  vm_compute in Hb2. injection Hb2 as <-.
  vm_compute in Hs2. injection Hs2 as <-.
  vm_compute in Hd2. injection Hd2 as <-.
  exact Hdata2.
Defined.

(** C8: only [event['Records'][0]] is consumed: two events that agree on it
    give the same result, the same world and the same requests, whatever else
    they hold. *)
Theorem only_first_record_is_consumed (event1 event2 context : pyval) (w : world) :
  first_record event1 = first_record event2 ->
  lambda_handler event1 context w = lambda_handler event2 context w.
Proof.
  intros H. unfold lambda_handler.
  rewrite !bucket_name_through_first_record, !object_key_through_first_record, H.
  reflexivity.
Qed.

Lemma only_first_record_is_consumed_witness :
  lambda_handler Sample.event Sample.context Sample.world0
    = lambda_handler Sample.event_two_records Sample.context Sample.world0.
Proof.
  apply (only_first_record_is_consumed Sample.event Sample.event_two_records).
  reflexivity.
Defined.

(** C9: a successful invocation sends exactly two requests, one read from
    object storage followed by one write to the key-value store; the write
    goes to the table [processed-data]; in that table the records under every
    other id are the ones that were there; every other table, the objects of
    S3 and the rest of the world are as before. *)
Theorem success_is_one_read_one_write
    (event context : pyval) (w w' : world) (r : pyval) (log : list request) :
  lambda_handler event context w = (Returned r, w', log) ->
  (exists b k it, log = [GetObject b k; PutItem table_name it]) /\
  length (reads log) = 1%nat /\
  length (writes log) = 1%nat /\
  (forall t it, In (PutItem t it) log -> t = lit "processed-data") /\
  (forall t : pystr, t <> lit "processed-data" ->
     (dynamodb_tables w' !! t) = (dynamodb_tables w !! t)) /\
  (exists k items items',
     getpath event object_key_path = Returned (PStr k) /\
     dynamodb_tables w !! lit "processed-data" = Some items /\
     dynamodb_tables w' !! lit "processed-data" = Some items' /\
     forall k', k' <> k ->
       List.filter (has_key k') items' = List.filter (has_key k') items) /\
  s3_objects w' = s3_objects w /\
  dynamodb_rejects w' = dynamodb_rejects w.
Proof.
  intros Hrun. apply run_returned_inv in Hrun
    as (b & k & body & s & items & _ & Hk & _ & _ & _ & Ht & _ & -> & ->).
  split; [eauto|]. split; [reflexivity|]. split; [reflexivity|].
  split.
  { intros t it [H|[H|[]]]; [discriminate|]. injection H as <- _. reflexivity. }
  split.
  { intros t Hne. simpl. apply lookup_insert_ne.
    intros Heq. apply Hne. symmetry. exact Heq. }
  split; [|split; reflexivity].
  exists k, items, (table_put k (make_item (PStr k) (transform s)) items).
  split; [exact Hk|]. split; [exact Ht|].
  split; [simpl; apply lookup_insert_eq|].
  intros k' Hne. apply table_put_other; [reflexivity | exact Hne].
Qed.

Lemma success_is_one_read_one_write_witness :
  length (reads (log_of (lambda_handler Sample.event Sample.context Sample.world0))) = 1%nat.
Proof.
  refine (proj1 (proj2
    (success_is_one_read_one_write Sample.event Sample.context Sample.world0
       Sample.world1 success
       (log_of (lambda_handler Sample.event Sample.context Sample.world0)) _))).
  reflexivity.
Defined.

(** C10: the handler does not look at its [context] argument: for every
    event and world, two invocations that differ only in [context] give the
    same result, the same world and the same requests. *)
Theorem context_is_ignored (event context1 context2 : pyval) (w : world) :
  lambda_handler event context1 w = lambda_handler event context2 w.
Proof. reflexivity. Qed.

(** * Further properties of the handler *)

(** ** Every run, case by case *)

Section RunCases.

Variables (event context : pyval) (w : world).

(** A put of a well-formed item that raises was sent, and changed nothing. *)
Lemma put_item_raised_valid (t : pystr) (it : pyval) (e : exn) (w' : world)
    (log : list request) :
  item_valid it = true ->
  dynamodb_put_item t it w = (Raised e, w', log) ->
  w' = w /\ log = [PutItem t it] /\ failure_kind_of e = StorageWriteError.
Proof.
  intros Hv. unfold dynamodb_put_item. rewrite Hv. simpl.
  destruct (dynamodb_rejects w t it); [intros [= <- <- <-]; auto|].
  destruct (dynamodb_tables w !! t) as [items|]; [|intros [= <- <- <-]; auto].
  destruct (item_key it) as [k|]; [discriminate|intros [= <- <- <-]; auto].
Qed.

(** A put that the service refuses, or whose table is missing, raises. *)
Lemma put_item_refused (t : pystr) (it : pyval) :
  item_valid it = true ->
  (exists code, dynamodb_rejects w t it = Some code) \/ dynamodb_tables w !! t = None ->
  exists e, dynamodb_put_item t it w = (Raised e, w, [PutItem t it]) /\
            failure_kind_of e = StorageWriteError.
Proof.
  intros Hv H. unfold dynamodb_put_item. rewrite Hv. simpl.
  destruct H as [[code ->]|Hnone]; [eexists; split; reflexivity|].
  destruct (dynamodb_rejects w t it); [eexists; split; reflexivity|].
  rewrite Hnone. eexists; split; reflexivity.
Qed.

Lemma run_not_both_str (bn ok : pyval) :
  getpath event bucket_name_path = Returned bn ->
  getpath event object_key_path = Returned ok ->
  not_both_str bn ok ->
  lambda_handler event context w = (Raised (get_object_refusal bn), w, []).
Proof.
  intros Hb Hk Hn. unfold lambda_handler, bind. rewrite Hb, Hk. simpl.
  destruct bn; try reflexivity. destruct ok; try reflexivity.
  exfalso. eapply Hn. split; reflexivity.
Qed.

Lemma both_str_or_not (bn ok : pyval) :
  (exists b k, bn = PStr b /\ ok = PStr k) \/ not_both_str bn ok.
Proof.
  destruct bn; try (right; unfold not_both_str; intros ? ? [H _]; discriminate H).
  destruct ok; try (right; unfold not_both_str; intros ? ? [_ H]; discriminate H).
  left. eexists _, _. split; reflexivity.
Qed.

(** The seven ways a run can go. *)
Lemma run_cases :
  let run := lambda_handler event context w in
  (exists e, getpath event bucket_name_path = Raised e /\ run = (Raised e, w, [])) \/
  (exists bn e, getpath event bucket_name_path = Returned bn /\
                getpath event object_key_path = Raised e /\ run = (Raised e, w, [])) \/
  (exists bn ok, getpath event bucket_name_path = Returned bn /\
                 getpath event object_key_path = Returned ok /\
                 not_both_str bn ok /\
                 run = (Raised (get_object_refusal bn), w, [])) \/
  (exists b k, getpath event bucket_name_path = Returned (PStr b) /\
               getpath event object_key_path = Returned (PStr k) /\
     ((exists code, s3_objects w b k = inl code /\
         run = (Raised (ClientError OpGetObject code), w, [GetObject b k])) \/
      (exists body, s3_objects w b k = inr body /\
         decode_utf8 body = Raised UnicodeDecodeError /\
         run = (Raised UnicodeDecodeError, w, [GetObject b k])) \/
      (exists body s, s3_objects w b k = inr body /\ decode_utf8 body = Returned s /\
         let it := make_item (PStr k) (str_upper s) in
         (exists e, failure_kind_of e = StorageWriteError /\
            run = (Raised e, w, [GetObject b k; PutItem table_name it])) \/
         (exists items, dynamodb_rejects w table_name it = None /\
            dynamodb_tables w !! table_name = Some items /\
            run = (Returned success,
                   set_tables w (<[table_name := table_put k it items]> (dynamodb_tables w)),
                   [GetObject b k; PutItem table_name it]))))).
Proof.
  intros run. subst run.
  destruct (getpath event bucket_name_path) as [bn|e] eqn:Hb;
    [|left; exists e; split; [reflexivity | apply run_bucket_name_raises, Hb]].
  right.
  destruct (getpath event object_key_path) as [ok|e] eqn:Hk;
    [|left; exists bn, e; split; [reflexivity|]; split; [reflexivity|];
      eapply run_object_key_raises; eassumption].
  right.
  destruct (both_str_or_not bn ok) as [(b & k & -> & ->)|Hn];
    [|left; exists bn, ok; split; [reflexivity|]; split; [reflexivity|];
      split; [exact Hn|]; eapply run_not_both_str; eassumption].
  right. exists b, k. split; [reflexivity|]. split; [reflexivity|].
  destruct (s3_objects w b k) as [code|body] eqn:Hs3.
  { left. exists code. split; [reflexivity|]. apply run_get_object_fails; assumption. }
  right.
  destruct (decode_utf8 body) as [s|e] eqn:Hd.
  - right. exists body, s. split; [reflexivity|]. split; [exact Hd|].
    cbv zeta. change (str_upper s) with (transform s).
    rewrite (run_until_put event context w b k body s Hb Hk Hs3 Hd).
    destruct (dynamodb_put_item table_name (make_item (PStr k) (transform s)) w)
      as [[[[]|e] w1] log1] eqn:Hput.
    + right. apply put_item_returned in Hput as (k' & items & Hrej & Ht & Hkey & -> & ->).
      rewrite item_key_make_item in Hkey. injection Hkey as <-.
      exists items. split; [exact Hrej|]. split; [exact Ht|]. reflexivity.
    + left. apply put_item_raised_valid in Hput as (-> & -> & Hkind);
        [|apply item_valid_make_item].
      exists e. split; [exact Hkind | reflexivity].
  - left. exists body.
    assert (e = UnicodeDecodeError) as ->.
    { unfold decode_utf8 in Hd. destruct (utf8_units _); congruence. }
    split; [reflexivity|]. split; [exact Hd|].
    eapply run_decode_fails; eassumption.
Qed.

End RunCases.

(** ** Failures, requests and redelivery *)

Lemma filter_twice {A} (f : A -> bool) (l : list A) :
  List.filter f (List.filter f l) = List.filter f l.
Proof.
  induction l as [|x l IH]; simpl; [reflexivity|].
  destruct (f x) eqn:E; simpl; rewrite ?E, IH; reflexivity.
Qed.

(** Putting the same item again gives the same table. *)
Lemma table_put_twice (k : pystr) (it : pyval) (items : list pyval) :
  item_key it = Some k ->
  table_put k it (table_put k it items) = table_put k it items.
Proof.
  intros Hk. apply has_key_true in Hk. unfold table_put. simpl.
  rewrite Hk. simpl. rewrite filter_twice. reflexivity.
Qed.

(** X1: an invocation that raises, at whatever stage, leaves the world as it
    was: no table is changed by a failed run. *)
Theorem failure_leaves_world_unchanged
    (event context : pyval) (w w' : world) (e : exn) (log : list request) :
  lambda_handler event context w = (Raised e, w', log) ->
  w' = w.
Proof.
  intros Hrun.
  destruct (run_cases event context w)
    as [(e1 & _ & H)|[(bn & e1 & _ & _ & H)|[(bn & ok & _ & _ & _ & H)|
        (b & k & _ & _ & [(code & _ & H)|[(body & _ & _ & H)|
          (body & s & _ & _ & [(e1 & _ & H)|(items & _ & _ & H)])]])]]];
    rewrite H in Hrun; try discriminate; injection Hrun as _ <- _; reflexivity.
Qed.

Lemma failure_leaves_world_unchanged_witness :
  world_of (lambda_handler Sample.event Sample.context Sample.world_no_table)
    = Sample.world_no_table.
Proof.
  apply (failure_leaves_world_unchanged Sample.event Sample.context Sample.world_no_table
           (world_of (lambda_handler Sample.event Sample.context Sample.world_no_table))
           (ClientError OpPutItem "ResourceNotFoundException")
           (log_of (lambda_handler Sample.event Sample.context Sample.world_no_table))).
  reflexivity.
Defined.

(** X2: whatever the event and the world, and whether the run returns or
    raises, the requests sent are none, or one read of the object the event
    names, or that read followed by one write to [processed-data] of the
    record built from the key and the upper-cased content.  There is never a
    write without the read before it, never a second read or write, never
    another table. *)
Theorem requests_are_a_read_then_a_write (event context : pyval) (w : world) :
  let log := log_of (lambda_handler event context w) in
  log = [] \/
  exists b k,
    getpath event bucket_name_path = Returned (PStr b) /\
    getpath event object_key_path = Returned (PStr k) /\
    (log = [GetObject b k] \/
     exists body s,
       s3_objects w b k = inr body /\
       decode_utf8 body = Returned s /\
       log = [GetObject b k; PutItem table_name (make_item (PStr k) (str_upper s))]).
Proof.
  intros log. subst log.
  destruct (run_cases event context w)
    as [(e1 & _ & H)|[(bn & e1 & _ & _ & H)|[(bn & ok & _ & _ & _ & H)|
        (b & k & Hb & Hk & [(code & _ & H)|[(body & _ & _ & H)|
          (body & s & Hs3 & Hd & [(e1 & _ & H)|(items & _ & _ & H)])]])]]];
    rewrite H; simpl; try (left; reflexivity);
    right; exists b, k; (split; [exact Hb|]); (split; [exact Hk|]);
    try (left; reflexivity);
    right; exists body, s; (split; [exact Hs3|]); (split; [exact Hd|]); reflexivity.
Qed.

(** X3: the object is read and decoded but the put is refused, by the service
    or because the table is missing: the handler raises a storage write
    error after sending the read and the write, and the world is unchanged. *)
Theorem refused_put_fails_after_read
    (event context : pyval) (w : world) (b k : pystr) (body : list byte) (s : pystr) :
  getpath event bucket_name_path = Returned (PStr b) ->
  getpath event object_key_path = Returned (PStr k) ->
  s3_objects w b k = inr body ->
  decode_utf8 body = Returned s ->
  (exists code,
     dynamodb_rejects w table_name (make_item (PStr k) (str_upper s)) = Some code) \/
  dynamodb_tables w !! table_name = None ->
  let run := lambda_handler event context w in
  (exists e, result_of run = Raised e /\ failure_kind_of e = StorageWriteError) /\
  log_of run = [GetObject b k; PutItem table_name (make_item (PStr k) (str_upper s))] /\
  world_of run = w.
Proof.
  intros Hb Hk Hs3 Hd Href run. subst run.
  rewrite (run_until_put event context w b k body s Hb Hk Hs3 Hd).
  destruct (put_item_refused w table_name (make_item (PStr k) (transform s))
              (item_valid_make_item k (transform s)) Href) as (e & -> & Hkind).
  split; [exists e; split; [reflexivity | exact Hkind]|]. split; reflexivity.
Qed.

Lemma refused_put_fails_after_read_witness :
  log_of (lambda_handler Sample.event Sample.context Sample.world_no_table)
    = [GetObject (lit "uploads") (lit "notes.txt");
       PutItem table_name (make_item (PStr (lit "notes.txt")) (lit "HELLO WORLD"))].
Proof.
  refine (proj1 (proj2
    (refused_put_fails_after_read Sample.event Sample.context Sample.world_no_table
       (lit "uploads") (lit "notes.txt") (list_byte_of_string "hello world")
       (lit "hello world") _ _ _ _ _))); try reflexivity.
  right. reflexivity.
Defined.

(** X4: no success is reported for a record that is not stored: when the
    handler returns, the object named by the event was read and decoded, and
    the table holds exactly one record under the object key, whose [id] is
    the key and whose [data] is the upper-cased content. *)
Theorem returned_means_record_is_stored
    (event context : pyval) (w w' : world) (r : pyval) (log : list request) :
  lambda_handler event context w = (Returned r, w', log) ->
  exists b k body s items' record,
    getpath event bucket_name_path = Returned (PStr b) /\
    getpath event object_key_path = Returned (PStr k) /\
    s3_objects w b k = inr body /\
    decode_utf8 body = Returned s /\
    dynamodb_tables w' !! table_name = Some items' /\
    List.filter (has_key k) items' = [record] /\
    item_attr (lit "id") record = Some k /\
    item_attr (lit "data") record = Some (str_upper s) /\
    record = make_item (PStr k) (str_upper s).
Proof.
  intros Hrun. apply run_returned_inv in Hrun
    as (b & k & body & s & items & Hb & Hk & Hs3 & Hd & _ & _ & _ & -> & _).
  exists b, k, body, s, (table_put k (make_item (PStr k) (transform s)) items),
    (make_item (PStr k) (str_upper s)).
  split; [exact Hb|]. split; [exact Hk|]. split; [exact Hs3|]. split; [exact Hd|].
  split; [simpl; apply lookup_insert_eq|].
  split; [apply table_put_same; reflexivity|].
  split; [apply item_key_make_item|]. split; [apply item_data_make_item|].
  reflexivity.
Qed.

Lemma returned_means_record_is_stored_witness :
  exists items' record,
    dynamodb_tables Sample.world1 !! table_name = Some items' /\
    List.filter (has_key (lit "notes.txt")) items' = [record] /\
    item_attr (lit "id") record = Some (lit "notes.txt") /\
    item_attr (lit "data") record = Some (lit "HELLO WORLD").
Proof.
  destruct (returned_means_record_is_stored Sample.event Sample.context Sample.world0
              Sample.world1 success
              (log_of (lambda_handler Sample.event Sample.context Sample.world0))
              eq_refl)
    as (b & k & body & s & items' & record
        & Hb & Hk & Hs3 & Hd & Ht & Hf & Hid & Hdata & _).
  vm_compute in Hb. injection Hb as <-.
  vm_compute in Hk. injection Hk as <-.
  vm_compute in Hs3. injection Hs3 as <-.
  vm_compute in Hd. injection Hd as <-.
  exists items', record. split; [exact Ht|]. split; [exact Hf|]. split; [exact Hid|].
  exact Hdata.
Defined.

(** X5: the handler depends on the event only through the two values it
    resolves: two events on which both subscript chains evaluate alike, to a
    value or to an exception, give the same run, whatever else they hold. *)
Theorem handler_reads_two_fields_only (event1 event2 context : pyval) (w : world) :
  getpath event1 bucket_name_path = getpath event2 bucket_name_path ->
  getpath event1 object_key_path = getpath event2 object_key_path ->
  lambda_handler event1 context w = lambda_handler event2 context w.
Proof. intros Hb Hk. unfold lambda_handler. rewrite Hb, Hk. reflexivity. Qed.

(** X6: a notification delivered again changes nothing: after a run that
    returned, the same event on the world it left returns the same result,
    sends the same requests and leaves that world exactly as it is. *)
Theorem redelivery_changes_nothing
    (event context context' : pyval) (w w1 : world) (r : pyval) (log : list request) :
  lambda_handler event context w = (Returned r, w1, log) ->
  lambda_handler event context' w1 = (Returned r, w1, log).
Proof.
  intros Hrun. apply run_returned_inv in Hrun
    as (b & k & body & s & items & Hb & Hk & Hs3 & Hd & Hrej & Ht & -> & -> & ->).
  set (it := make_item (PStr k) (transform s)) in *.
  rewrite (run_success event context'
             (set_tables w (<[table_name := table_put k it items]> (dynamodb_tables w)))
             b k body s (table_put k it items) Hb Hk Hs3 Hd Hrej);
    [|simpl; apply lookup_insert_eq].
  fold it. unfold set_tables. simpl.
  rewrite table_put_twice by reflexivity. rewrite insert_insert_eq. reflexivity.
Qed.

Lemma redelivery_changes_nothing_witness :
  lambda_handler Sample.event Sample.context Sample.world1
    = (Returned success, Sample.world1,
       log_of (lambda_handler Sample.event Sample.context Sample.world0)).
Proof.
  apply (redelivery_changes_nothing Sample.event Sample.context Sample.context
           Sample.world0).
  reflexivity.
Defined.

(** X7: records of different objects do not disturb each other: after two
    runs that returned, for two different object keys, the second on the
    table the first left, the table holds exactly one record under each key;
    the [data] of each is the upper-cased content that its own run read from
    the bucket and key its own event names. *)
Theorem different_keys_are_both_kept
    (ev1 ev2 ctx1 ctx2 : pyval) (w0 w1 env2 w2 : world) (r1 r2 : pyval)
    (log1 log2 : list request) (k1 k2 : pystr) :
  getpath ev1 object_key_path = Returned (PStr k1) ->
  getpath ev2 object_key_path = Returned (PStr k2) ->
  k1 <> k2 ->
  lambda_handler ev1 ctx1 w0 = (Returned r1, w1, log1) ->
  dynamodb_tables env2 = dynamodb_tables w1 ->
  lambda_handler ev2 ctx2 env2 = (Returned r2, w2, log2) ->
  exists b1 b2 body1 body2 s1 s2 items2 record1 record2,
    getpath ev1 bucket_name_path = Returned (PStr b1) /\
    s3_objects w0 b1 k1 = inr body1 /\ decode_utf8 body1 = Returned s1 /\
    getpath ev2 bucket_name_path = Returned (PStr b2) /\
    s3_objects env2 b2 k2 = inr body2 /\ decode_utf8 body2 = Returned s2 /\
    dynamodb_tables w2 !! table_name = Some items2 /\
    List.filter (has_key k1) items2 = [record1] /\
    item_attr (lit "id") record1 = Some k1 /\
    item_attr (lit "data") record1 = Some (str_upper s1) /\
    List.filter (has_key k2) items2 = [record2] /\
    item_attr (lit "id") record2 = Some k2 /\
    item_attr (lit "data") record2 = Some (str_upper s2) /\
    record1 = make_item (PStr k1) (str_upper s1) /\
    record2 = make_item (PStr k2) (str_upper s2).
Proof.
  intros Hk1 Hk2 Hne Hrun1 Henv Hrun2.
  apply run_returned_inv in Hrun1
    as (b1 & k1' & body1 & s1 & items1 & Hb1 & Hk1' & Hs1 & Hd1 & _ & _ & _ & -> & _).
  apply run_returned_inv in Hrun2
    as (b2 & k2' & body2 & s2 & items2 & Hb2 & Hk2' & Hs2 & Hd2 & _ & Ht2 & _ & -> & _).
  rewrite Hk1 in Hk1'. injection Hk1' as <-.
  rewrite Hk2 in Hk2'. injection Hk2' as <-.
  rewrite Henv in Ht2. simpl in Ht2. rewrite lookup_insert_eq in Ht2.
  injection Ht2 as <-.
  eexists b1, b2, body1, body2, s1, s2, _,
    (make_item (PStr k1) (str_upper s1)), (make_item (PStr k2) (str_upper s2)).
  split; [exact Hb1|]. split; [exact Hs1|]. split; [exact Hd1|].
  split; [exact Hb2|]. split; [exact Hs2|]. split; [exact Hd2|].
  split; [simpl; apply lookup_insert_eq|].
  split.
  { rewrite table_put_other by (reflexivity || exact Hne).
    apply table_put_same. reflexivity. }
  split; [apply item_key_make_item|]. split; [apply item_data_make_item|].
  split; [apply table_put_same; reflexivity|].
  split; [apply item_key_make_item|]. split; [apply item_data_make_item|].
  split; reflexivity.
Qed.

(** X8: when the event gives something that is not a [str] as the bucket name
    or as the object key (a number, [null], a list, ...), the handler raises
    at the call of [get_object], no request is sent and the world is
    unchanged.  A bucket name that is not a [str] raises the built-in
    [TypeError], whatever the key is; a [str] bucket name with a key that is
    not a [str] raises the client's parameter validation error. *)
Theorem non_string_name_or_key_sends_nothing
    (event context : pyval) (w : world) (bn ok : pyval) :
  getpath event bucket_name_path = Returned bn ->
  getpath event object_key_path = Returned ok ->
  (forall b, bn <> PStr b) \/ (forall k, ok <> PStr k) ->
  lambda_handler event context w
    = (Raised (match bn with
               | PStr _ => ParamValidationError OpGetObject
               | _ => TypeError
               end), w, []).
Proof.
  intros Hb Hk H. apply (run_not_both_str event context w bn ok Hb Hk).
  intros b k [Hbn Hok]. destruct H as [H|H]; [exact (H b Hbn) | exact (H k Hok)].
Qed.

Lemma non_string_name_or_key_sends_nothing_witness :
  lambda_handler Sample.event_null_bucket Sample.context Sample.world0
    = (Raised TypeError, Sample.world0, []) /\
  lambda_handler Sample.event_numeric_key Sample.context Sample.world0
    = (Raised (ParamValidationError OpGetObject), Sample.world0, []).
Proof.
  split.
  - apply (non_string_name_or_key_sends_nothing Sample.event_null_bucket Sample.context
             Sample.world0 PNone (PStr (lit "notes.txt"))); try reflexivity.
    left. intros b. discriminate.
  - apply (non_string_name_or_key_sends_nothing Sample.event_numeric_key Sample.context
             Sample.world0 (PStr (lit "uploads")) (PInt 7)); try reflexivity.
    right. intros k. discriminate.
Defined.

Lemma different_keys_are_both_kept_witness :
  exists items2 record1 record2,
    dynamodb_tables Sample.world2_two !! table_name = Some items2 /\
    List.filter (has_key (lit "notes.txt")) items2 = [record1] /\
    item_attr (lit "data") record1 = Some (lit "HELLO WORLD") /\
    List.filter (has_key (lit "other.txt")) items2 = [record2] /\
    item_attr (lit "data") record2 = Some (lit "ABC").
Proof.
  destruct (different_keys_are_both_kept
              Sample.event Sample.event_other Sample.context Sample.context
              Sample.world0_two Sample.world1_two Sample.world1_two Sample.world2_two
              success success
              (log_of (lambda_handler Sample.event Sample.context Sample.world0_two))
              (log_of (lambda_handler Sample.event_other Sample.context Sample.world1_two))
              (lit "notes.txt") (lit "other.txt")
              eq_refl eq_refl ltac:(discriminate) eq_refl eq_refl eq_refl)
    as (b1 & b2 & body1 & body2 & s1 & s2 & items2 & record1 & record2
        & Hb1 & Hs1 & Hd1 & Hb2 & Hs2 & Hd2 & Ht & Hf1 & _ & Hdata1 & Hf2 & _ & Hdata2 & _).
  vm_compute in Hb1. injection Hb1 as <-.
  vm_compute in Hs1. injection Hs1 as <-.
  vm_compute in Hd1. injection Hd1 as <-.
  vm_compute in Hb2. injection Hb2 as <-.
  vm_compute in Hs2. injection Hs2 as <-.
  vm_compute in Hd2. injection Hd2 as <-.
  exists items2, record1, record2.
  split; [exact Ht|]. split; [exact Hf1|]. split; [exact Hdata1|].
  split; [exact Hf2|]. exact Hdata2.
Defined.

Lemma handler_reads_two_fields_only_witness :
  lambda_handler Sample.event Sample.context Sample.world0
    = lambda_handler Sample.event_with_metadata Sample.context Sample.world0.
Proof.
  apply (handler_reads_two_fields_only Sample.event Sample.event_with_metadata);
    reflexivity.
Defined.

(** ** What is decoded and what is stored *)

Section DecodedText.

Lemma lor_lt_pow2 (a b n : N) : a < 2 ^ n -> b < 2 ^ n -> N.lor a b < 2 ^ n.
Proof.
  intros Ha Hb.
  destruct a as [|pa]; [rewrite N.lor_0_l; exact Hb|].
  destruct b as [|pb]; [rewrite N.lor_0_r; exact Ha|].
  apply N.log2_lt_pow2; [reflexivity|].
  rewrite N.log2_lor. apply N.max_lub_lt; apply N.log2_lt_pow2; (assumption || lia).
Qed.

Lemma cont_bits_lt (b : N) : cont_bits b < 64.
Proof. unfold cont_bits. pose proof (N.land_le_r b 0x3F). lia. Qed.

Lemma shiftl_land_lt (x m k bound : N) :
  m * 2 ^ k < bound -> N.shiftl (N.land x m) k < bound.
Proof.
  intros H. rewrite N.shiftl_mul_pow2.
  pose proof (N.land_le_r x m) as Hle.
  eapply N.le_lt_trans; [|exact H].
  apply N.mul_le_mono_r. exact Hle.
Qed.

Lemma shiftl_cont_bits_lt (b k bound : N) :
  63 * 2 ^ k < bound -> N.shiftl (cont_bits b) k < bound.
Proof. apply shiftl_land_lt. Qed.

Lemma is_scalar_below_surrogates (c : N) : c < 0xD800 -> is_scalar c = true.
Proof.
  intros H. unfold is_scalar, is_surrogate.
  destruct (N.ltb_spec c 0x110000); [|lia].
  destruct (N.leb_spec 0xD800 c); [lia|]. reflexivity.
Qed.

(** One step of the decoder: a code point, which is a scalar value, made of
    one to four leading units, and the decoding of the rest. *)
Lemma utf8_units_cons_inv (b0 : N) (r0 : list N) (s : pystr) :
  utf8_units (b0 :: r0) = Some s ->
  exists c s' rest,
    s = c :: s' /\ utf8_units rest = Some s' /\ is_scalar c = true /\
    (length rest < length (b0 :: r0))%nat /\
    (length (b0 :: r0) <= length rest + 4)%nat.
Proof.
  simpl utf8_units.
  destruct (b0 <? 0x80) eqn:E1.
  { destruct (utf8_units r0) as [s'|] eqn:Hr; simpl; [|discriminate].
    intros [= <-]. exists b0, s', r0.
    apply N.ltb_lt in E1.
    repeat split; [exact Hr | apply is_scalar_below_surrogates; lia | simpl; lia..]. }
  destruct (b0 <? 0xC2); [discriminate|].
  destruct (b0 <? 0xE0).
  { destruct r0 as [|b1 r1]; [discriminate|].
    destruct (is_cont b1); [|discriminate].
    destruct (utf8_units r1) as [s'|] eqn:Hr; simpl; [|discriminate].
    intros [= <-]. eexists _, s', r1.
    repeat split; [exact Hr | | simpl; lia..].
    apply is_scalar_below_surrogates.
    eapply N.lt_trans; [apply (lor_lt_pow2 _ _ 11)|reflexivity].
    - apply shiftl_land_lt. reflexivity.
    - pose proof (cont_bits_lt b1). change (2 ^ 11) with 2048. lia. }
  destruct (b0 <? 0xF0).
  { destruct r0 as [|b1 [|b2 r2]]; try discriminate.
    match goal with
    | |- context [if ?cond then _ else _] => destruct cond eqn:Hc
    end; [|discriminate].
    destruct (utf8_units r2) as [s'|] eqn:Hr; simpl; [|discriminate].
    intros [= <-]. eexists _, s', r2.
    repeat split; [exact Hr | | simpl; lia..].
    apply andb_prop in Hc as [Hc Hsur]. apply negb_true_iff in Hsur.
    unfold is_scalar. rewrite Hsur. rewrite andb_true_r. apply N.ltb_lt.
    eapply N.lt_trans; [apply (lor_lt_pow2 _ _ 16)|reflexivity].
    - apply shiftl_land_lt. reflexivity.
    - apply lor_lt_pow2.
      + apply shiftl_cont_bits_lt. reflexivity.
      + pose proof (cont_bits_lt b2). change (2 ^ 16) with 65536. lia. }
  destruct (b0 <? 0xF5); [|discriminate].
  destruct r0 as [|b1 [|b2 [|b3 r3]]]; try discriminate.
  match goal with
  | |- context [if ?cond then _ else _] => destruct cond eqn:Hc
  end; [|discriminate].
  destruct (utf8_units r3) as [s'|] eqn:Hr; simpl; [|discriminate].
  intros [= <-]. eexists _, s', r3.
  repeat split; [exact Hr | | simpl; lia..].
  apply andb_prop in Hc as [Hc Hhi]. apply andb_prop in Hc as [_ Hlo].
  apply N.leb_le in Hhi, Hlo.
  unfold is_scalar, is_surrogate.
  match goal with
  | |- context [?c <? 0x110000] => set (cp := c) in *
  end.
  destruct (N.ltb_spec cp 0x110000); [|lia].
  destruct (N.leb_spec 0xD800 cp); [|lia].
  destruct (N.leb_spec cp 0xDFFF); [lia|]. reflexivity.
Qed.

(** Whatever decodes is made of scalar values, and has at most as many code
    points as there are units and at least a quarter as many. *)
Lemma utf8_units_facts (n : nat) : forall (bs : list N) (s : pystr),
  (length bs <= n)%nat ->
  utf8_units bs = Some s ->
  Forall (fun c => is_scalar c = true) s /\
  (length s <= length bs)%nat /\ (length bs <= 4 * length s)%nat.
Proof.
  induction n as [|n IH]; intros bs s Hn Hs.
  - destruct bs; [|simpl in Hn; lia]. injection Hs as <-.
    split; [constructor|]. simpl. lia.
  - destruct bs as [|b0 r0].
    { injection Hs as <-. split; [constructor|]. simpl. lia. }
    apply utf8_units_cons_inv in Hs as (c & s' & rest & -> & Hrest & Hc & Hlt & Hle).
    destruct (IH rest s') as (Hall & Hlen & Hlen'); [simpl in *; lia | exact Hrest |].
    split; [constructor; assumption|]. simpl in *. lia.
Qed.

(** ASCII units decode to themselves. *)
Lemma utf8_units_ascii (bs : list N) :
  Forall (fun b => b < 128) bs -> utf8_units bs = Some bs.
Proof.
  induction 1 as [|b bs Hb _ IH]; [reflexivity|].
  simpl utf8_units. apply N.ltb_lt in Hb. rewrite Hb, IH. reflexivity.
Qed.

End DecodedText.

Section StoredText.

Lemma special_upper_lengths : forallb special_length_ok special_upper = true.
Proof. vm_compute. reflexivity. Qed.

Lemma special_upper_scalar : forallb special_image_scalar special_upper = true.
Proof. vm_compute. reflexivity. Qed.

Lemma simple_upper_scalar : forallb range_image_scalar simple_upper_ranges = true.
Proof. vm_compute. reflexivity. Qed.

(** A code point becomes one, two or three code points. *)
Lemma upper_cp_length (c : N) :
  (1 <= length (upper_cp c) <= 3)%nat.
Proof.
  unfold upper_cp.
  destruct (assoc_cp c special_upper) as [us|] eqn:Hsp.
  - apply assoc_cp_In in Hsp.
    pose proof special_upper_lengths as Hall.
    rewrite forallb_forall in Hall. specialize (Hall _ Hsp).
    unfold special_length_ok in Hall. simpl snd in Hall.
    apply andb_prop in Hall as [H2 H3].
    apply Nat.leb_le in H2, H3. lia.
  - destruct (find (in_range c) simple_upper_ranges); simpl; lia.
Qed.

(** The image of a scalar value is made of scalar values. *)
Lemma upper_cp_scalar (c : N) :
  is_scalar c = true -> Forall (fun u => is_scalar u = true) (upper_cp c).
Proof.
  intros Hc. unfold upper_cp.
  destruct (assoc_cp c special_upper) as [us|] eqn:Hsp.
  - apply assoc_cp_In in Hsp.
    pose proof special_upper_scalar as Hall.
    rewrite forallb_forall in Hall. specialize (Hall _ Hsp).
    unfold special_image_scalar in Hall. simpl snd in Hall.
    rewrite forallb_forall in Hall. apply List.Forall_forall. exact Hall.
  - destruct (find (in_range c) simple_upper_ranges) as [r|] eqn:Hfind.
    + apply find_some in Hfind as [Hr Hin].
      pose proof simple_upper_scalar as Hall.
      rewrite forallb_forall in Hall. specialize (Hall _ Hr).
      unfold range_image_scalar in Hall. rewrite forallb_forall in Hall.
      constructor; [|constructor]. apply Hall, in_range_members, Hin.
    + constructor; [exact Hc|constructor].
Qed.

Lemma str_upper_length (s : pystr) :
  (length s <= length (str_upper s) <= 3 * length s)%nat.
Proof.
  induction s as [|c s IH]; [simpl; lia|].
  change (str_upper (c :: s)) with (upper_cp c ++ str_upper s).
  rewrite length_app. pose proof (upper_cp_length c). simpl length. lia.
Qed.

Lemma str_upper_scalar (s : pystr) :
  Forall (fun c => is_scalar c = true) s ->
  Forall (fun c => is_scalar c = true) (str_upper s).
Proof.
  intros H. unfold str_upper. apply List.Forall_flat_map.
  eapply List.Forall_impl; [|exact H]. apply upper_cp_scalar.
Qed.

End StoredText.

(** X9: an object made of ASCII bytes always decodes, to the same characters,
    and its stored text is those characters with [a-z] replaced by [A-Z] and
    everything else kept: as many characters as the object has bytes. *)
Theorem ascii_object_is_upper_cased (body : list byte) :
  Forall (fun x => Byte.to_N x < 128) body ->
  decode_utf8 body = Returned (map Byte.to_N body) /\
  transform (map Byte.to_N body) = map ascii_upper (map Byte.to_N body) /\
  length (transform (map Byte.to_N body)) = length body.
Proof.
  intros H.
  assert (Hascii : Forall (fun c => c < 128) (map Byte.to_N body)).
  { apply List.Forall_map. exact H. }
  split.
  - unfold decode_utf8. rewrite utf8_units_ascii by exact Hascii. reflexivity.
  - unfold transform. rewrite str_upper_ascii by exact Hascii.
    split; [reflexivity|]. rewrite !length_map. reflexivity.
Qed.

Lemma ascii_object_is_upper_cased_witness :
  transform (map Byte.to_N (list_byte_of_string "hello world"))
    = map ascii_upper (map Byte.to_N (list_byte_of_string "hello world")).
Proof.
  refine (proj1 (proj2 (ascii_object_is_upper_cased (list_byte_of_string "hello world") _))).
  repeat constructor.
Defined.

(** X10: upper-casing never shortens a text and at most triples it: the
    stored text has between one and three times as many code points as the
    decoded content. *)
Theorem transform_length_bounds (s : pystr) :
  (length s <= length (transform s) <= 3 * length s)%nat.
Proof. unfold transform. apply str_upper_length. Qed.

(** X11: the text decoded from an object has at most as many code points as
    the object has bytes, and at least a quarter as many. *)
Theorem decoded_length_bounds (body : list byte) (s : pystr) :
  decode_utf8 body = Returned s ->
  (length s <= length body <= 4 * length s)%nat.
Proof.
  unfold decode_utf8.
  destruct (utf8_units (map Byte.to_N body)) as [s'|] eqn:Hu; [|discriminate].
  intros [= <-].
  destruct (utf8_units_facts _ _ _ (Nat.le_refl _) Hu) as (_ & H1 & H2).
  rewrite length_map in H1, H2. lia.
Qed.

Lemma decoded_length_bounds_witness :
  (length [0xE9] <= length [xc3; xa9] <= 4 * length [0xE9])%nat.
Proof.
  apply (decoded_length_bounds [xc3; xa9] [0xE9]). reflexivity.
Defined.

(** X12: the text the handler stores is made of Unicode scalar values only:
    whatever decodes from the object has no surrogate and nothing above
    U+10FFFF, and upper-casing keeps it so. *)
Theorem stored_text_is_scalar_values (body : list byte) (s : pystr) :
  decode_utf8 body = Returned s ->
  Forall (fun c => is_scalar c = true) s /\
  Forall (fun c => is_scalar c = true) (transform s).
Proof.
  unfold decode_utf8.
  destruct (utf8_units (map Byte.to_N body)) as [s'|] eqn:Hu; [|discriminate].
  intros [= <-].
  destruct (utf8_units_facts _ _ _ (Nat.le_refl _) Hu) as (Hall & _ & _).
  split; [exact Hall|]. unfold transform. apply str_upper_scalar, Hall.
Qed.

Lemma stored_text_is_scalar_values_witness :
  Forall (fun c => is_scalar c = true) (transform [0xDF]).
Proof.
  refine (proj2 (stored_text_is_scalar_values [xc3; x9f] [0xDF] _)). reflexivity.
Defined.

(** X13: the kind of the exception tells how far the run got.  A
    malformed-input error means nothing was sent; a storage read error means
    at most the read was sent and no write; a decode error means exactly the
    read was sent; a storage write error means the read and then the write to
    [processed-data] were sent. *)
Theorem failure_kind_tells_the_stage
    (event context : pyval) (w w' : world) (e : exn) (log : list request) :
  lambda_handler event context w = (Raised e, w', log) ->
  match failure_kind_of e with
  | MalformedInput => log = []
  | StorageReadError => writes log = [] /\ (length log <= 1)%nat
  | DecodeError => exists b k, log = [GetObject b k]
  | StorageWriteError => exists b k it, log = [GetObject b k; PutItem table_name it]
  end.
Proof.
  intros Hrun.
  destruct (run_cases event context w)
    as [(e1 & Hg & H)|[(bn & e1 & _ & Hg & H)|[(bn & ok & _ & _ & _ & H)|
        (b & k & _ & _ & [(code & _ & H)|[(body & _ & _ & H)|
          (body & s & _ & _ & [(e1 & Hkind & H)|(items & _ & _ & H)])]])]]];
    rewrite H in Hrun; try discriminate; injection Hrun as <- _ <-.
  - rewrite (getpath_raises _ _ _ Hg). reflexivity.
  - rewrite (getpath_raises _ _ _ Hg). reflexivity.
  - destruct bn; simpl; try reflexivity. split; [reflexivity | lia].
  - simpl. split; [reflexivity | lia].
  - simpl. eauto.
  - rewrite Hkind. eauto.
Qed.

Lemma failure_kind_tells_the_stage_witness :
  exists b k,
    log_of (lambda_handler Sample.event_binary Sample.context Sample.world0)
      = [GetObject b k].
Proof.
  apply (failure_kind_tells_the_stage Sample.event_binary Sample.context Sample.world0
           (world_of (lambda_handler Sample.event_binary Sample.context Sample.world0))
           UnicodeDecodeError
           (log_of (lambda_handler Sample.event_binary Sample.context Sample.world0))).
  reflexivity.
Defined.

(** X14: the handler never creates and never drops a table: after any run,
    returned or raised, the tables that exist are the ones that existed. *)
Theorem tables_are_neither_created_nor_dropped
    (event context : pyval) (w : world) (t : pystr) :
  is_Some (dynamodb_tables (world_of (lambda_handler event context w)) !! t) <->
  is_Some (dynamodb_tables w !! t).
Proof.
  destruct (run_world event context w) as [->|(k & it & items & Ht & _ & ->)];
    [reflexivity|].
  simpl. destruct (decide (table_name = t)) as [<-|Hne].
  - rewrite lookup_insert_eq, Ht. split; intros _; eexists; reflexivity.
  - rewrite lookup_insert_ne by exact Hne. reflexivity.
Qed.
